(** * The base connector of the Simple Data Pipe SDK

    A shallow embedding of [lib/connectors/connector.js] and the proofs of
    its contract.

    The connector keeps its state in closure variables ([id], [label],
    [steps], [options]) and in objects it shares with its caller: the option
    bag is the very object handed to the constructor.  The embedding therefore
    works over a heap of JavaScript objects, addressed by reference, and over
    a log of the function calls the connector makes. *)

From Stdlib Require Import ZArith.
From stdpp Require Import base gmap strings pretty list.

Local Open Scope string_scope.
Local Open Scope list_scope.

(** ** JavaScript values and objects *)

Definition loc := positive.

(** Numbers are only ever tested for truthiness by the connector: the
    integral ones and NaN are represented, any other double behaves like a
    non-zero integer. *)
Inductive value : Type :=
  | VUndefined
  | VNull
  | VBool (b : bool)
  | VNumber (n : Z)
  | VNaN
  | VString (s : string)
  | VObject (l : loc).

#[global] Instance value_eq_dec : EqDecision value.
Proof. solve_decision. Defined.

(** ToBoolean, as used by [||] and by the conditional operator. *)
Definition truthy (v : value) : bool :=
  match v with
  | VUndefined | VNull | VNaN => false
  | VBool b => b
  | VNumber n => negb (n =? 0)%Z
  | VString s => negb (String.eqb s "")
  | VObject _ => true
  end.

Inductive property : Type :=
  | Data (v : value)
  | Accessor (getter setter : value).

(** The functions whose body belongs to the language rather than to a caller:
    [Object.prototype.hasOwnProperty] and the setter of
    [Object.prototype.__proto__].  Every other function is [Opaque]. *)
Inductive code : Type :=
  | Opaque
  | HasOwnPropertyCode
  | ProtoSetterCode.

Inductive kind : Type :=
  | Ordinary
  | Array
  | Function (c : code).

(** An object: its own properties and its prototype link; keys are strings.
    [extensible] is false once the object has been sealed, frozen or closed
    to extensions; [readonly] holds the keys of the own data properties that
    are not writable. *)
Record object : Type := Obj {
  props : gmap string property;
  proto : option loc;
  kind_of : kind;
  extensible : bool;
  readonly : gset string
}.

(** An object as literals and [new] make it: extensible, every property
    writable. *)
Definition Object (ps : gmap string property) (p : option loc) (k : kind) : object :=
  Obj ps p k true ∅.

Definition set_proto (p : option loc) (o : object) : object :=
  Obj (props o) p (kind_of o) (extensible o) (readonly o).

Definition set_own (k : string) (v : value) (o : object) : object :=
  Obj (<[k := Data v]> (props o)) (proto o) (kind_of o) (extensible o) (readonly o).

(** [Object.freeze(o)] *)
Definition freeze (o : object) : object :=
  Obj (props o) (proto o) (kind_of o) false (dom (props o)).

Definition has_own (o : object) (k : string) : bool :=
  match props o !! k with Some _ => true | None => false end.

(** ** The intrinsic objects *)

Definition ObjectPrototype : loc := 1%positive.
Definition FunctionPrototype : loc := 2%positive.
Definition ArrayPrototype : loc := 3%positive.
Definition StringPrototype : loc := 4%positive.
Definition NumberPrototype : loc := 5%positive.
Definition BooleanPrototype : loc := 6%positive.
Definition HasOwnPropertyFn : loc := 7%positive.
Definition ProtoGetterFn : loc := 8%positive.
Definition ProtoSetterFn : loc := 9%positive.

(** [Object.prototype]: its methods are data properties, [__proto__] is an
    accessor. *)
Definition object_prototype : object :=
  Object
    (list_to_map
       [ ("constructor", Data (VObject 10%positive));
         ("hasOwnProperty", Data (VObject HasOwnPropertyFn));
         ("isPrototypeOf", Data (VObject 11%positive));
         ("propertyIsEnumerable", Data (VObject 12%positive));
         ("toLocaleString", Data (VObject 13%positive));
         ("toString", Data (VObject 14%positive));
         ("valueOf", Data (VObject 15%positive));
         ("__defineGetter__", Data (VObject 16%positive));
         ("__defineSetter__", Data (VObject 17%positive));
         ("__lookupGetter__", Data (VObject 18%positive));
         ("__lookupSetter__", Data (VObject 19%positive));
         ("__proto__", Accessor (VObject ProtoGetterFn) (VObject ProtoSetterFn)) ])
    None Ordinary.

Definition function_object (c : code) : object :=
  Object ∅ (Some FunctionPrototype) (Function c).

Definition empty_prototype : object := Object ∅ (Some ObjectPrototype) Ordinary.

(** The heap a program starts from, as far as the connector looks into it:
    the other prototypes and the functions are listed without their own
    properties, which the connector never reads. *)
Definition realm : gmap loc object :=
  list_to_map
    ([ (ObjectPrototype, object_prototype);
       (FunctionPrototype, empty_prototype);
       (ArrayPrototype, empty_prototype);
       (StringPrototype, empty_prototype);
       (NumberPrototype, empty_prototype);
       (BooleanPrototype, empty_prototype);
       (HasOwnPropertyFn, function_object HasOwnPropertyCode);
       (ProtoGetterFn, function_object Opaque);
       (ProtoSetterFn, function_object ProtoSetterCode) ]
     ++ ((λ l, (l, function_object Opaque)) <$>
           [10; 11; 12; 13; 14; 15; 16; 17; 18; 19]%positive)).

(** What the theorems need of the heap: [Object.prototype] is untouched and
    its two interpreted functions are in place. *)
Definition pristine (h : gmap loc object) : Prop :=
  h !! ObjectPrototype = Some object_prototype
  ∧ (∃ o, h !! HasOwnPropertyFn = Some o ∧ kind_of o = Function HasOwnPropertyCode)
  ∧ (∃ o, h !! ProtoSetterFn = Some o ∧ kind_of o = Function ProtoSetterCode).

(** Object and array literals. *)
Definition object_literal (fields : list (string * value)) : object :=
  Object (list_to_map (prod_map id Data <$> fields)) (Some ObjectPrototype) Ordinary.

Definition array_literal (elems : list value) : object :=
  Object
    (<["length" := Data (VNumber (Z.of_nat (length elems)))]>
       (list_to_map (imap (λ i v, (pretty i, Data v)) elems)))
    (Some ArrayPrototype) Array.

(** ** Property lookup along the prototype chain *)

(** A chain without a cycle is shorter than this. *)
Definition chain_bound (h : gmap loc object) : nat := S (S (size h)).

Fixpoint find_prop (n : nat) (h : gmap loc object) (l : loc) (k : string)
  : option property :=
  match n with
  | O => None
  | S n' =>
      match h !! l with
      | None => None
      | Some o =>
          match props o !! k with
          | Some p => Some p
          | None =>
              match proto o with
              | Some l' => find_prop n' h l' k
              | None => None
              end
          end
      end
  end.

(** Is the property [k], as found from [l] along the prototype chain, a data
    property that is not writable? *)
Fixpoint read_only (n : nat) (h : gmap loc object) (l : loc) (k : string) : bool :=
  match n with
  | O => false
  | S n' =>
      match h !! l with
      | None => false
      | Some o =>
          match props o !! k with
          | Some _ => bool_decide (k ∈ readonly o)
          | None =>
              match proto o with
              | Some l' => read_only n' h l' k
              | None => false
              end
          end
      end
  end.

(** The own properties of a string primitive: [length] and its indices. *)
Definition string_own (s k : string) : option value :=
  if decide (k = "length") then Some (VNumber (Z.of_nat (String.length s)))
  else
    (λ p : nat * nat, VString (String.substring p.1 1 s))
      <$> list_find (λ i : nat, pretty i = k) (seq 0 (String.length s)).

(** [lookup_prop h v k]: the property [k] as seen from the value [v]; the
    outer [None] is the TypeError of reading a property of [undefined] or
    [null]. *)
Definition lookup_prop (h : gmap loc object) (v : value) (k : string)
  : option (option property) :=
  match v with
  | VUndefined | VNull => None
  | VObject l => Some (find_prop (chain_bound h) h l k)
  | VString s =>
      Some (match string_own s k with
            | Some x => Some (Data x)
            | None => find_prop (chain_bound h) h StringPrototype k
            end)
  | VNumber _ | VNaN => Some (find_prop (chain_bound h) h NumberPrototype k)
  | VBool _ => Some (find_prop (chain_bound h) h BooleanPrototype k)
  end.

(** ** Computations: a heap, a log of calls, exceptions *)

Record call : Type := Call {
  callee : value;
  receiver : value;
  arguments : list value
}.

Inductive exn : Type :=
  | TypeError
  | Raised (v : value).

Inductive result (A : Type) : Type :=
  | Normal (a : A)
  | Thrown (e : exn).
Arguments Normal {A} a.
Arguments Thrown {A} e.

Record state : Type := State {
  heap : gmap loc object;
  log : list call
}.

Definition M (A : Type) : Type := state → result A * state.

Definition ret {A} (a : A) : M A := λ s, (Normal a, s).

Definition throw {A} (e : exn) : M A := λ s, (Thrown e, s).

Definition bind {A B} (m : M A) (f : A → M B) : M B := λ s,
  match m s with
  | (Normal a, s') => f a s'
  | (Thrown e, s') => (Thrown e, s')
  end.

Notation "'let*' x ':=' m 'in' k" := (bind m (λ x, k))
  (at level 10, x name, m at level 100, k at level 200).

Definition alloc (o : object) : M loc := λ s,
  let l := fresh (dom (heap s)) in
  (Normal l, State (<[l := o]> (heap s)) (log s)).

Definition function_code (h : gmap loc object) (f : value) : option code :=
  match f with
  | VObject l =>
      match h !! l with
      | Some o => match kind_of o with Function c => Some c | _ => None end
      | None => None
      end
  | _ => None
  end.

(** Does the prototype chain of [from] pass through [target]? *)
Fixpoint reaches (n : nat) (h : gmap loc object) (from target : loc) : bool :=
  match n with
  | O => false
  | S n' =>
      if decide (from = target) then true
      else match h !! from with
           | Some o =>
               match proto o with
               | Some p => reaches n' h p target
               | None => false
               end
           | None => false
           end
  end.

(** The interpreted functions; [None] leaves the call to the environment, as
    for an [Opaque] function.  [hasOwnProperty] is interpreted when its
    argument is a string, as in every call the connector makes: another
    argument would first be converted to a key, which may run code of the
    caller.  The setter of [__proto__] changes the prototype when it is given
    an object or [null], refuses a cycle or a change on an object that is not
    extensible, and ignores any other value. *)
Definition builtin (c : code) (this : value) (args : list value)
    (h : gmap loc object) : option (result value * gmap loc object) :=
  match c with
  | Opaque => None
  | HasOwnPropertyCode =>
      match args with
      | VString k :: _ =>
          match this with
          | VUndefined | VNull => Some (Thrown TypeError, h)
          | VObject l =>
              match h !! l with
              | Some o => Some (Normal (VBool (has_own o k)), h)
              | None => None
              end
          | VString s =>
              Some (Normal (VBool (bool_decide (is_Some (string_own s k)))), h)
          | VBool _ | VNumber _ | VNaN => Some (Normal (VBool false), h)
          end
      | _ => None
      end
  | ProtoSetterCode =>
      match this with
      | VUndefined | VNull => Some (Thrown TypeError, h)
      | VObject l =>
          match h !! l with
          | None => None
          | Some o =>
              match head args with
              | Some VNull =>
                  if decide (proto o = None) then Some (Normal VUndefined, h)
                  else if negb (extensible o) then Some (Thrown TypeError, h)
                  else Some (Normal VUndefined, <[l := set_proto None o]> h)
              | Some (VObject p) =>
                  if decide (proto o = Some p) then Some (Normal VUndefined, h)
                  else if negb (extensible o) then Some (Thrown TypeError, h)
                  else if reaches (chain_bound h) h p l then Some (Thrown TypeError, h)
                  else Some (Normal VUndefined, <[l := set_proto (Some p) o]> h)
              | _ => Some (Normal VUndefined, h)
              end
          end
      | _ => Some (Normal VUndefined, h)
      end
  end.

Section Runtime.

(** How the functions the connector does not define behave: given the call
    and the heap, they return or throw, and leave a heap.  (A callee that
    never returns is not represented.) *)
Variable β : call → gmap loc object → result value * gmap loc object.

(** [f.call(this, ...args)]: a TypeError when [f] is not a function;
    otherwise the call is logged and runs. *)
Definition invoke (f this : value) (args : list value) : M value := λ s,
  match function_code (heap s) f with
  | None => (Thrown TypeError, s)
  | Some c =>
      let entry := Call f this args in
      let '(r, h') :=
        match builtin c this args (heap s) with
        | Some rh => rh
        | None => β entry (heap s)
        end in
      (r, State h' (log s ++ [entry]))
  end.

(** [o[k]] *)
Definition get_prop (o : value) (k : string) : M value := λ s,
  match lookup_prop (heap s) o k with
  | None => (Thrown TypeError, s)
  | Some None => (Normal VUndefined, s)
  | Some (Some (Data v)) => (Normal v, s)
  | Some (Some (Accessor g _)) =>
      match g with
      | VUndefined => (Normal VUndefined, s)
      | _ => invoke g o [] s
      end
  end.

(** [o[k] = v] in strict mode: a setter found on the chain is called; else
    the property is written on [o] itself, which must be an object.  The
    write is a TypeError when the property found is not writable, and when
    [o] has no such property of its own and is not extensible. *)
Definition set_prop (o : value) (k : string) (v : value) : M unit := λ s,
  match lookup_prop (heap s) o k with
  | None => (Thrown TypeError, s)
  | Some (Some (Accessor _ f)) =>
      match f with
      | VUndefined => (Thrown TypeError, s)
      | _ => bind (invoke f o [v]) (λ _, ret tt) s
      end
  | Some _ =>
      match o with
      | VObject l =>
          match heap s !! l with
          | Some obj =>
              if read_only (chain_bound (heap s)) (heap s) l k
              then (Thrown TypeError, s)
              else if has_own obj k || extensible obj
              then (Normal tt, State (<[l := set_own k v obj]> (heap s)) (log s))
              else (Thrown TypeError, s)
          | None => (Thrown TypeError, s)
          end
      | _ => (Thrown TypeError, s)
      end
  end.

(** [o.name(...args)] *)
Definition call_method (o : value) (name : string) (args : list value) : M value :=
  let* f := get_prop o name in
  invoke f o args.

End Runtime.

(** ** The connector *)

Module Connector.

(** The closure variables of one connector. *)
Record instance : Type := Closure {
  id : value;
  label : value;
  steps : value;
  options : value
}.

Section Methods.

Variable β : call → gmap loc object → result value * gmap loc object.

(** The literal [{ useOAuth: true, extraRequiredFields: [] }], given the
    reference of its empty array. *)
Definition defaults (extraRequiredFields : loc) : list (string * value) :=
  [ ("useOAuth", VBool true);
    ("extraRequiredFields", VObject extraRequiredFields) ].

(** [_.forIn(object, iteratee)] (lodash) over an object literal: the
    iteratee sees the fields in the order they were written, and never stops
    the iteration, since it returns [undefined].  An object literal inherits
    no enumerable property from [Object.prototype]. *)
Fixpoint forIn (fields : list (string * value))
    (iteratee : value → string → M unit) : M unit :=
  match fields with
  | [] => ret tt
  | (key, value) :: rest =>
      let* _ := iteratee value key in
      forIn rest iteratee
  end.

(** [function(value, key) { if (!options.hasOwnProperty(key)) options[key] = value; }] *)
Definition merge_default (options : value) (value : value) (key : string) : M unit :=
  let* present := call_method β options "hasOwnProperty" [VString key] in
  if truthy present then ret tt else set_prop β options key value.

(** Lines 38 to 47: the literal [defaults] and its merge into [options]. *)
Definition merge_defaults (options : value) : M unit :=
  let* extraRequiredFields := alloc (array_literal []) in
  let* _ := alloc (object_literal (defaults extraRequiredFields)) in
  forIn (defaults extraRequiredFields) (merge_default options).

(** [function connector(options)], lines 32 to 47: the body up to the
    installation of the methods.  The result is the closure those methods
    share; the argument of a call without argument is [undefined]. *)
Definition connector (options : value) : M instance :=
  let* steps := alloc (array_literal []) in
  let* options :=
    (if truthy options then ret options
     else let* bag := alloc (object_literal []) in ret (VObject bag)) in
  let* _ := merge_defaults options in
  ret (Closure VNull VNull (VObject steps) options).

Definition getId (c : instance) : value := id c.

Definition setId (c : instance) (_id : value) : instance :=
  Closure _id (label c) (steps c) (options c).

Definition setOption (c : instance) (key : string) (value : value) : M unit :=
  set_prop β (options c) key value.

Definition getOption (c : instance) (key : string) : M value :=
  let* present := call_method β (options c) "hasOwnProperty" [VString key] in
  if truthy present then get_prop β (options c) key else ret VNull.

Definition getLabel (c : instance) : value := label c.

Definition setLabel (c : instance) (_label : value) : instance :=
  Closure (id c) _label (steps c) (options c).

Definition setSteps (c : instance) (_steps : value) : instance :=
  Closure (id c) (label c) _steps (options c).

Definition getSteps (c : instance) : value := steps c.

Definition runStarted (readyCallback : value) : M value :=
  invoke β readyCallback VUndefined [].

Definition runFinished : M value := ret VUndefined.

Definition init (app : value) : M value := ret VUndefined.

(** The literal [{ message: 'Not Authorized', code: 401 }]. *)
Definition not_authorized : object :=
  object_literal [ ("message", VString "Not Authorized"); ("code", VNumber 401) ].

Definition authCallback (oAuthCode pipeId callback : value) : M value :=
  let* err := alloc not_authorized in
  invoke β callback VUndefined [VObject err].

Definition connectDataSource (req res pipeId url callback : value) : M value :=
  let* err := alloc not_authorized in
  invoke β callback VUndefined [VObject err].

Definition getPassportStrategy (pipe : value) : value := VNull.

Definition getPassportAuthorizationParams : M value :=
  let* params := alloc (object_literal []) in
  ret (VObject params).

Definition passportAuthCallbackPostProcessing (info pipe callback : value) : M value :=
  invoke β callback VUndefined [].

(** [toJSON]: the accessors are called through [this], whatever functions
    the receiver has under these names at that time; only [options] is read
    from the closure.  The functions the constructor stores on the connector
    are function values like any other: what a call of them does is given by
    the environment. *)
Definition toJSON (c : instance) (this : value) : M value :=
  let* id := call_method β this "getId" [] in
  let* label := call_method β this "getLabel" [] in
  let* steps := call_method β this "getSteps" [] in
  let* path := get_prop β this "path" in
  let* json :=
    alloc (object_literal
             [ ("id", id);
               ("label", label);
               ("steps", steps);
               ("options", options c);
               ("path", if truthy path then path else VNull) ]) in
  ret (VObject json).

End Methods.

End Connector.

(** ** Option bags the way object literals make them *)

(** The shape of an object literal: an ordinary object whose prototype is
    [Object.prototype] and whose own properties are data properties. *)
Definition literal_shaped (o : object) : Prop :=
  proto o = Some ObjectPrototype
  ∧ kind_of o = Ordinary
  ∧ ∀ k p, props o !! k = Some p → ∃ v, p = Data v.

Definition plain (h : gmap loc object) (l : loc) (o : object) : Prop :=
  h !! l = Some o ∧ literal_shaped o.

(** An object that can be written: it is extensible and each of its
    properties is writable (it was not frozen, sealed or closed). *)
Definition mutable (o : object) : Prop := extensible o = true ∧ readonly o = ∅.

(** The bag has no key that hides [Object.prototype.hasOwnProperty]. *)
Definition unshadowed (o : object) : Prop := props o !! "hasOwnProperty" = None.

(** What a default does to a bag: nothing when the key is there. *)
Definition add_default (k : string) (v : value) (o : object) : object :=
  if has_own o k then o else set_own k v o.

(** The bag as the constructor leaves it, [e] being the fresh empty array. *)
Definition merged (e : loc) (o : object) : object :=
  add_default "extraRequiredFields" (VObject e)
    (add_default "useOAuth" (VBool true) o).

(** The value a read of [v[k]] yields when no getter is involved. *)
Definition attribute (h : gmap loc object) (v : value) (k : string) : option value :=
  match lookup_prop h v k with
  | Some None => Some VUndefined
  | Some (Some (Data x)) => Some x
  | _ => None
  end.

(** The value of the own data property [k] of the object at [l]. *)
Definition field (h : gmap loc object) (l : loc) (k : string) : option value :=
  match h !! l with
  | Some o => match props o !! k with Some (Data v) => Some v | _ => None end
  | None => None
  end.

Definition is_function (h : gmap loc object) (f : value) : Prop :=
  is_Some (function_code h f).

(** The call [options.hasOwnProperty(key)], as logged. *)
Definition hasOwnProperty_call (l : loc) (k : string) : call :=
  Call (VObject HasOwnPropertyFn) (VObject l) [VString k].

(** A callee that returns [undefined] and leaves the heap alone. *)
Definition silent : call → gmap loc object → result value * gmap loc object :=
  λ _ h, (Normal VUndefined, h).

Definition start : state := State realm [].

(** The default of the key [k], [null] when it has none; [e] is the empty
    array made for [extraRequiredFields]. *)
Definition default_value (e : loc) (k : string) : value :=
  match (list_to_map (Connector.defaults e) : gmap string value) !! k with
  | Some v => v
  | None => VNull
  end.

(** A value that is not a reference. *)
Definition primitive (v : value) : Prop :=
  match v with VObject _ => False | _ => True end.

(** The prototype of the wrapper of a primitive, as far as the constructor
    looks into it: it inherits from [Object.prototype] and defines neither
    [hasOwnProperty] nor [useOAuth] itself. *)
Definition wrapper_prototype (h : gmap loc object) (w : loc) : Prop :=
  ∃ o, h !! w = Some o
       ∧ proto o = Some ObjectPrototype
       ∧ props o !! "hasOwnProperty" = None
       ∧ props o !! "useOAuth" = None.

(** A number or a boolean, and the prototype of its wrapper. *)
Definition wrapped_by (v : value) (w : loc) : Prop :=
  (∃ n, v = VNumber n ∧ w = NumberPrototype)
  ∨ (∃ b, v = VBool b ∧ w = BooleanPrototype).

(** The call of the setter of [__proto__] by [options['__proto__'] = v]. *)
Definition proto_setter_call (l : loc) (v : value) : call :=
  Call (VObject ProtoSetterFn) (VObject l) [v].

(** ** Heaps to run the connector on *)

(** A heap with one function of the caller's, for the callbacks. *)
Definition callback_fn : loc := 100%positive.

Definition callback_heap : gmap loc object :=
  <[callback_fn := function_object Opaque]> realm.

(** The three accessors as functions on the heap, and the environment in
    which they are the accessors of the connector [c]: each returns its
    closure variable and leaves the heap alone. *)
Definition getId_fn : loc := 110%positive.
Definition getLabel_fn : loc := 111%positive.
Definition getSteps_fn : loc := 112%positive.

Definition accessors (c : Connector.instance)
  : call → gmap loc object → result value * gmap loc object :=
  λ cl h,
    if decide (callee cl = VObject getId_fn) then (Normal (Connector.getId c), h)
    else if decide (callee cl = VObject getLabel_fn) then (Normal (Connector.getLabel c), h)
    else if decide (callee cl = VObject getSteps_fn) then (Normal (Connector.getSteps c), h)
    else (Normal VUndefined, h).

Definition with_accessors (h : gmap loc object) : gmap loc object :=
  <[getId_fn := function_object Opaque]>
    (<[getLabel_fn := function_object Opaque]>
       (<[getSteps_fn := function_object Opaque]> h)).

Definition accessor_fields : list (string * value) :=
  [ ("getId", VObject getId_fn);
    ("getLabel", VObject getLabel_fn);
    ("getSteps", VObject getSteps_fn) ].

(** A heap with one object that stands for the connector itself: it holds
    the accessors, and the fields given. *)
Definition self : loc := 100%positive.

Definition self_heap (fields : list (string * value)) : gmap loc object :=
  <[self := object_literal (accessor_fields ++ fields)]> (with_accessors realm).

(** A bag without a prototype, as [Object.create(null)] makes it. *)
Definition bare_bag : loc := 100%positive.

Definition bare_heap : gmap loc object :=
  <[bare_bag := Object ∅ None Ordinary]> realm.

(** The bag [{ useOAuth: false, hasOwnProperty: 1 }], as
    [JSON.parse('{"useOAuth": false, "hasOwnProperty": 1}')] makes it. *)
Definition shadowing_bag : loc := 100%positive.

Definition shadowing_heap : gmap loc object :=
  <[shadowing_bag :=
      object_literal [("useOAuth", VBool false); ("hasOwnProperty", VNumber 1)]]>
    realm.

(** The bag [{ extraRequiredFields: ['token'] }] and its array. *)
Definition token_array : loc := 100%positive.
Definition token_bag : loc := 101%positive.

Definition token_heap : gmap loc object :=
  <[token_bag := object_literal [("extraRequiredFields", VObject token_array)]]>
    (<[token_array := array_literal [VString "token"]]> realm).

(** The same heap with an object that stands for the connector built on
    that bag: it holds the accessors and a [path]. *)
Definition demo_self : loc := 102%positive.

Definition demo_heap : gmap loc object :=
  <[demo_self :=
      object_literal (accessor_fields ++ [("path", VString "/connectors/demo")])]>
    (with_accessors token_heap).

(** A heap with the frozen bag [Object.freeze({ useOAuth: false })]. *)
Definition frozen_bag : loc := 100%positive.


(** ** The heap under allocation and update *)

Lemma bind_normal {A B} (m : M A) (f : A → M B) s a s' :
  m s = (Normal a, s') → bind m f s = f a s'.
Proof. unfold bind. by intros ->. Qed.

Lemma bind_thrown {A B} (m : M A) (f : A → M B) s e s' :
  m s = (Thrown e, s') → bind m f s = (Thrown e, s').
Proof. unfold bind. by intros ->. Qed.

Lemma lookup_alloc (h : gmap loc object) l o x :
  h !! l = Some o → <[fresh (dom h) := x]> h !! l = Some o.
Proof.
  intros H. rewrite lookup_insert_ne; [done|].
  intros <-. apply (is_fresh (dom h)), elem_of_dom. eauto.
Qed.

Lemma fresh_lookup (h : gmap loc object) : h !! fresh (dom h) = None.
Proof. apply not_elem_of_dom, is_fresh. Qed.

Lemma pristine_alloc h x : pristine h → pristine (<[fresh (dom h) := x]> h).
Proof.
  intros (H1 & (o2 & H2 & K2) & (o3 & H3 & K3)).
  repeat split; eauto using lookup_alloc.
Qed.

Lemma plain_alloc h l o x : plain h l o → plain (<[fresh (dom h) := x]> h) l o.
Proof. intros (H & ?). split; eauto using lookup_alloc. Qed.

Lemma pristine_update h l o o' :
  pristine h → plain h l o → literal_shaped o' → pristine (<[l := o']> h).
Proof.
  intros (H1 & (o2 & H2 & K2) & (o3 & H3 & K3)) (Hl & Hp & Hk & _) (Hp' & Hk' & _).
  assert (l ≠ ObjectPrototype) by (intros ->; rewrite H1 in Hl; by inversion Hl; subst).
  assert (l ≠ HasOwnPropertyFn) by (intros ->; congruence).
  assert (l ≠ ProtoSetterFn) by (intros ->; congruence).
  repeat split; [by rewrite lookup_insert_ne|exists o2|exists o3];
    by rewrite lookup_insert_ne.
Qed.

Lemma plain_update h l o : literal_shaped o → plain (<[l := o]> h) l o.
Proof. intros. split; [apply lookup_insert_eq | done]. Qed.

Lemma object_literal_shaped fields : literal_shaped (object_literal fields).
Proof.
  repeat split. intros k p Hk. apply elem_of_list_to_map_2 in Hk.
  apply list_elem_of_fmap in Hk as ([k' v] & [= -> ->] & _). eauto.
Qed.

Lemma set_own_shaped k v o : literal_shaped o → literal_shaped (set_own k v o).
Proof.
  intros (Hp & Hk & Hd). repeat split; simpl; try done.
  intros k' p. rewrite lookup_insert. case_decide; [|by eauto].
  intros [= <-]. eauto.
Qed.

Lemma object_literal_mutable fields : mutable (object_literal fields).
Proof. done. Qed.

Lemma set_own_mutable k v o : mutable o → mutable (set_own k v o).
Proof. by intros [? ?]. Qed.

Lemma add_default_mutable k v o : mutable o → mutable (add_default k v o).
Proof.
  intros Ho. unfold add_default. destruct (has_own o k); [done|].
  by apply set_own_mutable.
Qed.

Lemma add_default_shaped k v o : literal_shaped o → literal_shaped (add_default k v o).
Proof.
  intros Ho. unfold add_default. destruct (has_own o k); [done|].
  by apply set_own_shaped.
Qed.

Lemma add_default_unshadowed o k v :
  unshadowed o → k ≠ "hasOwnProperty" → unshadowed (add_default k v o).
Proof.
  unfold unshadowed, add_default. intros Hu Hk.
  destruct (has_own o k); [done|]. simpl. by rewrite lookup_insert_ne.
Qed.

Lemma merged_shaped e o : literal_shaped o → literal_shaped (merged e o).
Proof. intros. by do 2 apply add_default_shaped. Qed.

Lemma merged_mutable e o : mutable o → mutable (merged e o).
Proof. intros. by do 2 apply add_default_mutable. Qed.

Lemma merged_unshadowed e o : unshadowed o → unshadowed (merged e o).
Proof. intros. unfold merged. by do 2 (apply add_default_unshadowed; [|done]). Qed.

(** The caller's bindings win, the defaults fill the rest. *)
Lemma merged_lookup e o k :
  props (merged e o) !! k =
    match props o !! k with
    | Some p => Some p
    | None =>
        Data <$> (list_to_map (Connector.defaults e) : gmap string value) !! k
    end.
Proof.
  unfold merged, add_default, has_own. cbn [Connector.defaults list_to_map foldr].
  destruct (props o !! "useOAuth") eqn:H1;
    [destruct (props o !! "extraRequiredFields") eqn:H2
    |cbn [set_own props]; rewrite (lookup_insert_ne _ "useOAuth" "extraRequiredFields") by done;
     destruct (props o !! "extraRequiredFields") eqn:H2];
    cbn [set_own props fst snd];
    destruct (props o !! k) eqn:Hk;
    repeat (rewrite lookup_insert; case_decide; simplify_eq; try done);
    try (by rewrite Hk); by rewrite ?lookup_empty.
Qed.

Lemma object_prototype_accessor k g f :
  props object_prototype !! k = Some (Accessor g f) → k = "__proto__".
Proof.
  intros Hk. apply elem_of_list_to_map_2 in Hk.
  rewrite !elem_of_cons, elem_of_nil in Hk. destruct_or!; by simplify_eq.
Qed.

Lemma find_prop_plain h l o k :
  pristine h → plain h l o →
  find_prop (chain_bound h) h l k =
    match props o !! k with
    | Some p => Some p
    | None => props object_prototype !! k
    end.
Proof.
  intros (H1 & _) (Hl & Hp & _). unfold chain_bound. cbn [find_prop].
  rewrite Hl. destruct (props o !! k); [done|].
  rewrite Hp, H1. by destruct (props object_prototype !! k).
Qed.

Lemma read_only_plain h l o k :
  pristine h → plain h l o → readonly o = ∅ →
  read_only (chain_bound h) h l k = false.
Proof.
  intros (H1 & _) (Hl & Hp & _) Hr. unfold chain_bound. cbn [read_only].
  rewrite Hl, Hr. destruct (props o !! k); [done|].
  rewrite Hp, H1. by destruct (props object_prototype !! k).
Qed.

(** ** The runtime on plain bags *)

Section PlainBags.

Variable β : call → gmap loc object → result value * gmap loc object.

Lemma invoke_log f this args s :
  is_function (heap s) f →
  log (invoke β f this args s).2 = log s ++ [Call f this args].
Proof.
  intros [c Hc]. unfold invoke. rewrite Hc.
  by destruct (match builtin c this args (heap s) with
               | Some rh => rh | None => β _ (heap s) end).
Qed.

Lemma invoke_not_function f this args s :
  function_code (heap s) f = None →
  invoke β f this args s = (Thrown TypeError, s).
Proof. unfold invoke. by intros ->. Qed.

Lemma call_hasOwnProperty s l o k :
  pristine (heap s) → plain (heap s) l o → unshadowed o →
  call_method β (VObject l) "hasOwnProperty" [VString k] s =
    (Normal (VBool (has_own o k)),
     State (heap s) (log s ++ [hasOwnProperty_call l k])).
Proof.
  intros Hh Hl Hu. pose proof Hh as (_ & (f & Hf & Kf) & _).
  unfold call_method, bind, get_prop. cbn [lookup_prop].
  rewrite (find_prop_plain _ _ _ _ Hh Hl), Hu.
  change (props object_prototype !! "hasOwnProperty")
    with (Some (Data (VObject HasOwnPropertyFn))).
  unfold invoke, function_code. rewrite Hf, Kf. cbn [builtin].
  destruct Hl as (-> & _). done.
Qed.

Lemma set_prop_plain s l o k v :
  pristine (heap s) → plain (heap s) l o → mutable o → k ≠ "__proto__" →
  set_prop β (VObject l) k v s =
    (Normal tt, State (<[l := set_own k v o]> (heap s)) (log s)).
Proof.
  intros Hh Hl (He & Hr) Hk. unfold set_prop. cbn [lookup_prop].
  rewrite (find_prop_plain _ _ _ _ Hh Hl), (read_only_plain _ _ _ _ Hh Hl Hr).
  destruct Hl as (Hl & _ & _ & Hd). rewrite Hl, He, orb_true_r.
  destruct (props o !! k) as [p|] eqn:Hp.
  - by destruct (Hd _ _ Hp) as [x ->].
  - destruct (props object_prototype !! k) as [[x|g f]|] eqn:Ho; try done.
    by apply object_prototype_accessor in Ho.
Qed.

Lemma get_prop_own s l o k v :
  plain (heap s) l o → props o !! k = Some (Data v) →
  get_prop β (VObject l) k s = (Normal v, s).
Proof.
  intros (Hl & _) Hk. unfold get_prop. cbn [lookup_prop].
  unfold chain_bound. cbn [find_prop]. by rewrite Hl, Hk.
Qed.

Lemma merge_default_plain s l o k v :
  pristine (heap s) → plain (heap s) l o → mutable o → unshadowed o →
  k ≠ "__proto__" →
  Connector.merge_default β (VObject l) v k s =
    (Normal tt,
     State (<[l := add_default k v o]> (heap s))
           (log s ++ [hasOwnProperty_call l k])).
Proof.
    intros Hh Hl Hm Hu Hk. unfold Connector.merge_default.
  rewrite (bind_normal _ _ _ _ _ (call_hasOwnProperty s l o k Hh Hl Hu)).
  unfold add_default. cbn [truthy]. destruct (has_own o k).
  - unfold ret. destruct Hl as (Hl & _). cbn [heap]. by rewrite insert_id.
  - by rewrite (set_prop_plain _ l o).
Qed.

Lemma merge_defaults_plain s l o :
  pristine (heap s) → plain (heap s) l o → mutable o → unshadowed o →
  let e := fresh (dom (heap s)) in
  let h1 := <[e := array_literal []]> (heap s) in
  let d := fresh (dom h1) in
  let h2 := <[d := object_literal (Connector.defaults e)]> h1 in
  Connector.merge_defaults β (VObject l) s =
    (Normal tt,
     State (<[l := merged e o]> h2)
           (log s ++ [hasOwnProperty_call l "useOAuth";
                      hasOwnProperty_call l "extraRequiredFields"])).
Proof.
    intros Hh Hl Hm Hu e h1 d h2. unfold Connector.merge_defaults.
  unfold bind at 1, alloc at 1. unfold bind at 1, alloc at 1. cbn [heap log].
  fold e. fold h1. fold d. fold h2.
  assert (pristine h2) as Hh2 by (by do 2 apply pristine_alloc).
  assert (plain h2 l o) as Hl2 by (by do 2 apply plain_alloc).
  cbn [Connector.forIn Connector.defaults].
  rewrite (bind_normal _ _ _ _ _
             (merge_default_plain (State h2 (log s)) l o "useOAuth" _ Hh2 Hl2 Hm Hu
                ltac:(done))).
  set (o1 := add_default "useOAuth" (VBool true) o).
  assert (literal_shaped o1) as Ho1 by (apply add_default_shaped, Hl).
  assert (pristine (<[l := o1]> h2)) as Hh3 by (by apply (pristine_update h2 l o)).
  assert (plain (<[l := o1]> h2) l o1) as Hl3 by (by apply plain_update).
  assert (unshadowed o1) as Hu3 by (by apply add_default_unshadowed).
    assert (mutable o1) as Hm3 by (by apply add_default_mutable).
  rewrite (bind_normal _ _ _ _ _
             (merge_default_plain (State (<[l := o1]> h2) _) l o1
                "extraRequiredFields" _ Hh3 Hl3 Hm3 Hu3 ltac:(done))).
  unfold ret, merged. cbn [heap log]. fold o1.
  by rewrite insert_insert_eq, <- app_assoc.
Qed.

(** Lines 38 to 47 on a plain bag: the bag is completed in place, two
    arrays and the literal [defaults] apart nothing else changes. *)
Lemma merge_defaults_spec s l o :
  pristine (heap s) → plain (heap s) l o → mutable o → unshadowed o →
  ∃ e s',
    Connector.merge_defaults β (VObject l) s = (Normal tt, s')
    ∧ pristine (heap s') ∧ plain (heap s') l (merged e o)
    ∧ heap s !! e = None ∧ heap s' !! e = Some (array_literal [])
    ∧ ∀ l' o', l' ≠ l → heap s !! l' = Some o' → heap s' !! l' = Some o'.
Proof.
    intros Hh Hl Hm Hu. eexists _, _. split; [by apply merge_defaults_plain|].
  cbn [heap]. set (e := fresh (dom (heap s))).
  set (h1 := <[e := array_literal []]> (heap s)). set (d := fresh (dom h1)).
  assert (e ≠ l) as Hel.
  { intros Heq. destruct Hl as (Hl & _). pose proof (fresh_lookup (heap s)) as Hf.
    fold e in Hf. congruence. }
  assert (d ≠ e) as Hde.
  { intros Heq. pose proof (fresh_lookup h1) as Hf. fold d in Hf. subst h1.
    by rewrite Heq, lookup_insert_eq in Hf. }
  split_and!.
  - apply (pristine_update _ l o); [by do 2 apply pristine_alloc
                                   |by do 2 apply plain_alloc
                                   |apply merged_shaped, Hl].
  - apply plain_update, merged_shaped, Hl.
  - apply fresh_lookup.
  - subst h1. rewrite (lookup_insert_ne _ l e), (lookup_insert_ne _ d e) by done.
    apply lookup_insert_eq.
  - intros l' o' Hne Hl'. rewrite lookup_insert_ne by done.
    by do 2 apply lookup_alloc.
Qed.

End PlainBags.

(** ** Construction and the option accessors *)

Section Construction.

Variable β : call → gmap loc object → result value * gmap loc object.


(** Construction with a plain object: the closure holds the caller's
    reference, and the object itself has been completed with the
    defaults. *)
Lemma connector_object s l o :
  pristine (heap s) → plain (heap s) l o → mutable o → unshadowed o →
  ∃ st e s',
    Connector.connector β (VObject l) s =
      (Normal (Connector.Closure VNull VNull (VObject st) (VObject l)), s')
    ∧ pristine (heap s') ∧ plain (heap s') l (merged e o)
    ∧ heap s !! e = None ∧ heap s' !! e = Some (array_literal []).
Proof.
  intros Hh Hl Hmut Hu. unfold Connector.connector.
  unfold bind at 1, alloc at 1. cbn [truthy]. unfold bind at 1, ret at 1.
  set (st := fresh (dom (heap s))). set (h0 := <[st := array_literal []]> (heap s)).
  destruct (merge_defaults_spec β (State h0 (log s)) l o)
    as (e & s' & Hm & Hh' & Hl' & He & He' & _);
    [by apply pristine_alloc|by apply plain_alloc|done|done|].
  rewrite (bind_normal _ _ _ _ _ Hm). exists st, e, s'. split_and!; try done.
  cbn [heap] in He. subst h0. destruct (decide (st = e)) as [Heq|Hne].
  - by rewrite <- Heq, lookup_insert_eq in He.
  - by rewrite lookup_insert_ne in He.
Qed.


Lemma getOption_plain c s l o k :
  Connector.options c = VObject l →
  pristine (heap s) → plain (heap s) l o → unshadowed o →
  Connector.getOption β c k s =
    (Normal (match props o !! k with Some (Data v) => v | _ => VNull end),
     State (heap s) (log s ++ [hasOwnProperty_call l k])).
Proof.
  intros Hc Hh Hl Hu. unfold Connector.getOption. rewrite Hc.
  rewrite (bind_normal _ _ _ _ _ (call_hasOwnProperty β s l o k Hh Hl Hu)).
  unfold has_own. cbn [truthy].
  destruct (props o !! k) as [p|] eqn:Hk; [|done].
  destruct Hl as (Hl & Ho). destruct Ho as (? & ? & Hd).
  destruct (Hd _ _ Hk) as [v ->].
  by apply (get_prop_own β _ l o).
Qed.

Lemma setOption_plain c s l o k v :
  Connector.options c = VObject l →
  pristine (heap s) → plain (heap s) l o → mutable o → k ≠ "__proto__" →
  Connector.setOption β c k v s =
    (Normal tt, State (<[l := set_own k v o]> (heap s)) (log s)).
Proof.
  intros Hc Hh Hl Hm Hk. unfold Connector.setOption. rewrite Hc.
  by apply set_prop_plain.
Qed.

End Construction.

Lemma merged_useOAuth e o :
  props o !! "useOAuth" = None →
  props (merged e o) !! "useOAuth" = Some (Data (VBool true)).
Proof. intros H. by rewrite merged_lookup, H. Qed.

Lemma merged_extraRequiredFields e o :
  props o !! "extraRequiredFields" = None →
  props (merged e o) !! "extraRequiredFields" = Some (Data (VObject e)).
Proof. intros H. by rewrite merged_lookup, H. Qed.

Lemma merged_kept e o k p :
  props o !! k = Some p → props (merged e o) !! k = Some p.
Proof. intros H. by rewrite merged_lookup, H. Qed.

Lemma function_code_alloc h f c x :
  function_code h f = Some c → function_code (<[fresh (dom h) := x]> h) f = Some c.
Proof.
  destruct f as [| | | | | |l]; try done. unfold function_code.
  destruct (h !! l) as [o|] eqn:Hl; [|done]. by rewrite (lookup_alloc _ _ _ _ Hl).
Qed.

(** ** What holds on plain bags *)

Section OnPlainBags.

Variable β : call → gmap loc object → result value * gmap loc object.

(** A plain bag without [useOAuth] gets [useOAuth: true]. *)
Lemma default_useOAuth s l o :
  pristine (heap s) → plain (heap s) l o → mutable o → unshadowed o →
  props o !! "useOAuth" = None →
  ∃ c s1, Connector.connector β (VObject l) s = (Normal c, s1)
          ∧ (Connector.getOption β c "useOAuth" s1).1 = Normal (VBool true).
Proof.
  intros Hh Hl Hm Hu Hk.
  destruct (connector_object β s l o Hh Hl Hm Hu) as (st & e & s1 & Hc & Hh1 & Hl1 & _).
  eexists _, s1. split; [done|].
  rewrite (getOption_plain β _ s1 l (merged e o) "useOAuth");
    [|done|done|done|by apply merged_unshadowed].
  by rewrite merged_useOAuth.
Qed.

(** A plain bag without [extraRequiredFields] gets a new empty array. *)
Lemma default_extraRequiredFields s l o :
  pristine (heap s) → plain (heap s) l o → mutable o → unshadowed o →
  props o !! "extraRequiredFields" = None →
  ∃ c s1 e, Connector.connector β (VObject l) s = (Normal c, s1)
            ∧ (Connector.getOption β c "extraRequiredFields" s1).1 = Normal (VObject e)
            ∧ heap s !! e = None ∧ heap s1 !! e = Some (array_literal []).
Proof.
  intros Hh Hl Hm Hu Hk.
  destruct (connector_object β s l o Hh Hl Hm Hu)
    as (st & e & s1 & Hc & Hh1 & Hl1 & He & He1).
  eexists _, s1, e. split_and!; try done.
  rewrite (getOption_plain β _ s1 l (merged e o) "extraRequiredFields");
    [|done|done|done|by apply merged_unshadowed].
  by rewrite merged_extraRequiredFields.
Qed.

(** A binding of the caller survives construction. *)
Lemma caller_binding_wins s l o k v :
  pristine (heap s) → plain (heap s) l o → mutable o → unshadowed o →
  props o !! k = Some (Data v) →
  ∃ c s1, Connector.connector β (VObject l) s = (Normal c, s1)
          ∧ (Connector.getOption β c k s1).1 = Normal v.
Proof.
  intros Hh Hl Hm Hu Hk.
  destruct (connector_object β s l o Hh Hl Hm Hu) as (st & e & s1 & Hc & Hh1 & Hl1 & _).
  eexists _, s1. split; [done|].
  rewrite (getOption_plain β _ s1 l (merged e o) k);
    [|done|done|done|by apply merged_unshadowed].
  by rewrite (merged_kept _ _ _ _ Hk).
Qed.

(** A key the bag does not have reads as [null]. *)
Lemma getOption_absent c s l o k :
  Connector.options c = VObject l →
  pristine (heap s) → plain (heap s) l o → unshadowed o →
  props o !! k = None →
  (Connector.getOption β c k s).1 = Normal VNull.
Proof.
  intros Hc Hh Hl Hu Hk. rewrite (getOption_plain β c s l o k) by done.
  by rewrite Hk.
Qed.

(** What [setOption] wrote, [getOption] reads. *)
Lemma setOption_getOption c s l o k v :
  Connector.options c = VObject l →
  pristine (heap s) → plain (heap s) l o → mutable o → unshadowed o →
  k ≠ "__proto__" → k ≠ "hasOwnProperty" →
  ∃ s1, Connector.setOption β c k v s = (Normal tt, s1)
        ∧ (Connector.getOption β c k s1).1 = Normal v.
Proof.
  intros Hc Hh Hl Hm Hu Hk1 Hk2. eexists. split; [by apply (setOption_plain β c s l o)|].
  assert (literal_shaped (set_own k v o)) as Ho by apply set_own_shaped, Hl.
  rewrite (getOption_plain β c _ l (set_own k v o) k); try done.
  - cbn [props set_own fst]. by rewrite lookup_insert_eq.
  - by apply (pristine_update _ l o).
  - by apply plain_update.
  - unfold unshadowed. cbn [props set_own]. by rewrite lookup_insert_ne.
Qed.

End OnPlainBags.

(** The scenario of the contract: constructing with
    [{ extraRequiredFields: ['token'] }]. *)
Example scenario_token β :
  ∃ c s1,
    Connector.connector β (VObject token_bag) (State token_heap []) = (Normal c, s1)
    ∧ (Connector.getOption β c "extraRequiredFields" s1).1 = Normal (VObject token_array)
    ∧ (Connector.getOption β c "useOAuth" s1).1 = Normal (VBool true)
    ∧ heap s1 !! token_array = Some (array_literal [VString "token"]).
Proof. eexists _, _. split; [by vm_compute|]. by vm_compute. Qed.

(** A truthy primitive is kept as the bag; the first default cannot be
    written on it and construction throws. *)
Example primitive_bag_throws β :
  (Connector.connector β (VNumber 7) start).1 = Thrown TypeError
  ∧ (Connector.connector β (VString "abc") start).1 = Thrown TypeError
  ∧ (Connector.connector β (VBool true) start).1 = Thrown TypeError.
Proof. split_and!; by vm_compute. Qed.

(** A bag whose prototype the caller replaces by an object without
    prototype loses [hasOwnProperty]. *)
Example replaced_prototype_throws β :
  ∃ c s1 s2,
    Connector.connector β VUndefined (State bare_heap []) = (Normal c, s1)
    ∧ Connector.setOption β c "__proto__" (VObject bare_bag) s1 = (Normal tt, s2)
    ∧ (Connector.getOption β c "useOAuth" s2).1 = Thrown TypeError.
Proof. eexists _, _, _. split_and!; by vm_compute. Qed.

(** ** Callbacks *)

Section Callbacks.

Variable β : call → gmap loc object → result value * gmap loc object.

(** A call of a function the connector does not define: the environment
    decides the outcome and the heap, the log grows by the call. *)
Lemma invoke_opaque f this args s :
  function_code (heap s) f = Some Opaque →
  invoke β f this args s =
    ((β (Call f this args) (heap s)).1,
     State (β (Call f this args) (heap s)).2 (log s ++ [Call f this args])).
Proof.
  intros Hf. unfold invoke. rewrite Hf. cbn [builtin].
  by destruct (β (Call f this args) (heap s)).
Qed.

Lemma unauthorized_log callback s :
  is_function (heap s) callback →
  let err := fresh (dom (heap s)) in
  log ((let* err := alloc Connector.not_authorized in
        invoke β callback VUndefined [VObject err]) s).2
    = log s ++ [Call callback VUndefined [VObject err]].
Proof.
  intros [c Hc] err. unfold bind, alloc. fold err.
  rewrite invoke_log; [done|]. exists c. by apply function_code_alloc.
Qed.

End Callbacks.

Lemma realm_pristine : pristine realm.
Proof. split; [done|]. split; eexists; split; by vm_compute. Qed.

(** * The claims *)

(** C1, on a failing input.  The claim: whenever the options object handed
    to the constructor lacks the key [useOAuth], [getOption('useOAuth')] is
    [true] afterwards.  A bag without a prototype, as [Object.create(null)]
    makes it, lacks the key; yet the constructor asks the bag itself for
    [hasOwnProperty], finds nothing to call, and throws a TypeError: no
    connector is constructed. *)
Theorem C1_bag_without_prototype_throws :
  ∀ β,
    heap (State bare_heap []) !! bare_bag = Some (Object ∅ None Ordinary)
    ∧ has_own (Object ∅ None Ordinary) "useOAuth" = false
    ∧ (Connector.connector β (VObject bare_bag) (State bare_heap [])).1
      = Thrown TypeError.
Proof. intros β. split_and!; by vm_compute. Qed.

(** C2, on a failing input.  The claim: a binding the caller supplies for a
    default key survives construction, so that [getOption('useOAuth')] is
    [false] for a bag with [useOAuth: false].  The bag
    [{ useOAuth: false, hasOwnProperty: 1 }] has such a binding; its own key
    [hasOwnProperty] hides the method the constructor calls, and construction
    throws a TypeError. *)
Theorem C2_shadowing_bag_throws :
  ∀ β,
    field shadowing_heap shadowing_bag "useOAuth" = Some (VBool false)
    ∧ (Connector.connector β (VObject shadowing_bag) (State shadowing_heap [])).1
      = Thrown TypeError.
Proof. intros β. split; by vm_compute. Qed.

(** C3.  The default [authCallback] and the default [connectDataSource] call
    their callback exactly once: whatever the other arguments, the run adds
    one entry to the log, the call of [callback] with a single argument, the
    newly made object [{ message: 'Not Authorized', code: 401 }]; no second
    argument is passed. *)
Theorem C3_default_auth_calls_back_unauthorized
    β (oAuthCode pipeId req res url callback : value) s :
  is_function (heap s) callback →
  let err := fresh (dom (heap s)) in
  let s1 := State (<[err := Connector.not_authorized]> (heap s)) (log s) in
  heap s !! err = None
  ∧ field (heap s1) err "message" = Some (VString "Not Authorized")
  ∧ field (heap s1) err "code" = Some (VNumber 401)
  ∧ Connector.authCallback β oAuthCode pipeId callback s
    = invoke β callback VUndefined [VObject err] s1
  ∧ log (Connector.authCallback β oAuthCode pipeId callback s).2
    = log s ++ [Call callback VUndefined [VObject err]]
  ∧ Connector.connectDataSource β req res pipeId url callback s
    = invoke β callback VUndefined [VObject err] s1
  ∧ log (Connector.connectDataSource β req res pipeId url callback s).2
    = log s ++ [Call callback VUndefined [VObject err]].
Proof.
  intros Hf err s1. split_and!.
  - apply fresh_lookup.
  - unfold field, s1. cbn [heap]. by rewrite lookup_insert_eq.
  - unfold field, s1. cbn [heap]. by rewrite lookup_insert_eq.
  - done.
  - by apply unauthorized_log.
  - done.
  - by apply unauthorized_log.
Qed.

Lemma C3_witness :
  is_function (heap (State callback_heap [])) (VObject callback_fn)
  ∧ log (Connector.authCallback silent (VString "code") (VString "pipe")
           (VObject callback_fn) (State callback_heap [])).2
    = [Call (VObject callback_fn) VUndefined [VObject 101%positive]]
  ∧ log (Connector.connectDataSource silent VNull VNull (VString "pipe")
           (VString "/login") (VObject callback_fn) (State callback_heap [])).2
    = [Call (VObject callback_fn) VUndefined [VObject 101%positive]].
Proof.
  assert (is_function (heap (State callback_heap [])) (VObject callback_fn)) as Hf
    by (exists Opaque; by vm_compute).
  split; [exact Hf|].
  destruct (C3_default_auth_calls_back_unauthorized silent (VString "code")
              (VString "pipe") VNull VNull (VString "/login") (VObject callback_fn)
              (State callback_heap []) Hf) as (_ & _ & _ & _ & H1 & _ & H2).
  split; [exact H1 | exact H2].
Defined.

(** C4.  The default [runStarted] calls [readyCallback] exactly once, with no
    argument, before it returns: the log of the state it returns is the log
    it started from plus that one call, and its outcome is the outcome of the
    callback. *)
Theorem C4_runStarted_calls_back_once β (readyCallback : value) s :
  is_function (heap s) readyCallback →
  log (Connector.runStarted β readyCallback s).2
    = log s ++ [Call readyCallback VUndefined []]
  ∧ (function_code (heap s) readyCallback = Some Opaque →
     Connector.runStarted β readyCallback s
     = ((β (Call readyCallback VUndefined []) (heap s)).1,
        State (β (Call readyCallback VUndefined []) (heap s)).2
              (log s ++ [Call readyCallback VUndefined []]))).
Proof.
  intros Hf. split.
  - by apply invoke_log.
  - apply invoke_opaque.
Qed.

Lemma C4_witness :
  is_function (heap (State callback_heap [])) (VObject callback_fn)
  ∧ log (Connector.runStarted silent (VObject callback_fn) (State callback_heap [])).2
    = [Call (VObject callback_fn) VUndefined []].
Proof.
  assert (is_function (heap (State callback_heap [])) (VObject callback_fn)) as Hf
    by (exists Opaque; by vm_compute).
  split; [exact Hf|].
  exact (proj1 (C4_runStarted_calls_back_once silent (VObject callback_fn)
                  (State callback_heap []) Hf)).
Defined.

(** C5, on a failing input.  The claim: [getOption(k)] is [null], and does
    not throw, for every key the bag does not have, on every connector.  After
    [setOption('hasOwnProperty', 5)] on a connector constructed without
    argument, the bag has no key [missing]; [getOption('missing')] calls the
    number [5] and throws a TypeError. *)
Theorem C5_getOption_throws_after_shadowing :
  ∀ β, ∃ c s1 s2 bag o,
    Connector.connector β VUndefined start = (Normal c, s1)
    ∧ Connector.setOption β c "hasOwnProperty" (VNumber 5) s1 = (Normal tt, s2)
    ∧ Connector.options c = VObject bag
    ∧ heap s2 !! bag = Some o
    ∧ has_own o "missing" = false
    ∧ (Connector.getOption β c "missing" s2).1 = Thrown TypeError.
Proof.
  intros β. eexists _, _, _, _, _.
  split; [by vm_compute|]. split; [by vm_compute|]. split_and!; by vm_compute.
Qed.

(** C6, on a failing input.  The claim: [setOption(k, v)] followed by
    [getOption(k)] returns [v], for every key and value.  With the key
    [__proto__] and the value [5] the write reaches the setter of
    [Object.prototype], which ignores a number: the bag gets no such key and
    [getOption('__proto__')] returns [null].  With the key [hasOwnProperty]
    the read throws a TypeError. *)
Theorem C6_roundtrip_fails_on_proto_key :
  ∀ β, ∃ c s1 s2 s3,
    Connector.connector β VUndefined start = (Normal c, s1)
    ∧ Connector.setOption β c "__proto__" (VNumber 5) s1 = (Normal tt, s2)
    ∧ (Connector.getOption β c "__proto__" s2).1 = Normal VNull
    ∧ Connector.setOption β c "hasOwnProperty" (VNumber 5) s1 = (Normal tt, s3)
    ∧ (Connector.getOption β c "hasOwnProperty" s3).1 = Thrown TypeError.
Proof.
  intros β. eexists _, _, _, _.
  split; [by vm_compute|]. split; [by vm_compute|]. split; [by vm_compute|].
  split; by vm_compute.
Qed.

(** C7.  [setSteps(S)] followed by [getSteps()] returns [S] itself, whatever
    was stored before; the other closure variables are not touched. *)
Theorem C7_setSteps_getSteps (c : Connector.instance) (S : value) :
  Connector.getSteps (Connector.setSteps c S) = S
  ∧ Connector.getId (Connector.setSteps c S) = Connector.getId c
  ∧ Connector.getLabel (Connector.setSteps c S) = Connector.getLabel c
  ∧ Connector.options (Connector.setSteps c S) = Connector.options c.
Proof. by destruct c. Qed.

(** C8, counterexample.  The claim: the [path] field of [toJSON()] is the
    [path] attribute of the connector, read as it is, when there is one.  On
    a connector whose [path] is the empty string the attribute is there, and
    the field is [null]. *)
Lemma C8_empty_path_is_not_read_as_is :
  ∃ json s2,
    attribute (self_heap [("path", VString "")]) (VObject self) "path"
      = Some (VString "")
    ∧ Connector.toJSON
        (accessors (Connector.Closure (VString "demo") (VString "Demo") VNull VNull))
        (Connector.Closure (VString "demo") (VString "Demo") VNull VNull)
        (VObject self) (State (self_heap [("path", VString "")]) [])
      = (Normal (VObject json), s2)
    ∧ field (heap s2) json "id" = Some (VString "demo")
    ∧ field (heap s2) json "path" = Some VNull
    ∧ VNull ≠ VString "".
Proof.
  eexists _, _. split; [by vm_compute|]. split; [by vm_compute|].
  split; [by vm_compute|]. split; [by vm_compute|]. done.
Qed.

(** C8, amended.  At any point, [toJSON()] returns a new object with exactly
    the fields [id], [label], [steps], [options] and [path]: the first three
    are what [this.getId()], [this.getLabel()] and [this.getSteps()] return
    at that time, called in this order; [options] is the option bag itself;
    and [path] is the [path] attribute of the connector when that attribute
    is truthy, [null] when it is absent or falsy.  Apart from what the three
    accessors do, nothing else changes. *)
Theorem C8_toJSON_snapshot
    β (c : Connector.instance) (this : value) s s1 s2 s3 (i lb st p : value) :
  call_method β this "getId" [] s = (Normal i, s1) →
  call_method β this "getLabel" [] s1 = (Normal lb, s2) →
  call_method β this "getSteps" [] s2 = (Normal st, s3) →
  attribute (heap s3) this "path" = Some p →
  let json := fresh (dom (heap s3)) in
  heap s3 !! json = None
  ∧ Connector.toJSON β c this s =
      (Normal (VObject json),
       State (<[json := object_literal
                          [ ("id", i);
                            ("label", lb);
                            ("steps", st);
                            ("options", Connector.options c);
                            ("path", if truthy p then p else VNull) ]]> (heap s3))
             (log s3)).
Proof.
  intros Hi Hlb Hst Hp json. split; [apply fresh_lookup|].
  unfold Connector.toJSON.
  rewrite (bind_normal _ _ _ _ _ Hi), (bind_normal _ _ _ _ _ Hlb),
    (bind_normal _ _ _ _ _ Hst).
  unfold bind, get_prop. unfold attribute in Hp.
  destruct (lookup_prop (heap s3) this "path") as [[[x|g f]|]|]; try done;
    by injection Hp as <-.
Qed.

Lemma C8_witness :
  let c := Connector.Closure (VString "demo") (VString "Demo") VNull VNull in
  let h := self_heap [("path", VString "/connectors/demo")] in
  let call_of (f : loc) := Call (VObject f) (VObject self) [] in
  let s1 := State h [call_of getId_fn] in
  let s2 := State h [call_of getId_fn; call_of getLabel_fn] in
  let s3 := State h [call_of getId_fn; call_of getLabel_fn; call_of getSteps_fn] in
  call_method (accessors c) (VObject self) "getId" [] (State h [])
    = (Normal (Connector.getId c), s1)
  ∧ call_method (accessors c) (VObject self) "getLabel" [] s1
    = (Normal (Connector.getLabel c), s2)
  ∧ call_method (accessors c) (VObject self) "getSteps" [] s2
    = (Normal (Connector.getSteps c), s3)
  ∧ attribute (heap s3) (VObject self) "path" = Some (VString "/connectors/demo")
  ∧ Connector.toJSON (accessors c) c (VObject self) (State h [])
    = (Normal (VObject (fresh (dom h))),
       State (<[fresh (dom h) := object_literal
                  [ ("id", VString "demo"); ("label", VString "Demo");
                    ("steps", VNull); ("options", VNull);
                    ("path", VString "/connectors/demo") ]]> h)
             [call_of getId_fn; call_of getLabel_fn; call_of getSteps_fn]).
Proof.
  intros c h call_of s1 s2 s3.
  assert (call_method (accessors c) (VObject self) "getId" [] (State h [])
          = (Normal (Connector.getId c), s1)) as H1 by (by vm_compute).
  assert (call_method (accessors c) (VObject self) "getLabel" [] s1
          = (Normal (Connector.getLabel c), s2)) as H2 by (by vm_compute).
  assert (call_method (accessors c) (VObject self) "getSteps" [] s2
          = (Normal (Connector.getSteps c), s3)) as H3 by (by vm_compute).
  assert (attribute (heap s3) (VObject self) "path"
          = Some (VString "/connectors/demo")) as Hp by (by vm_compute).
  split_and!; [exact H1 | exact H2 | exact H3 | exact Hp |].
  exact (proj2 (C8_toJSON_snapshot (accessors c) c (VObject self) (State h [])
                  s1 s2 s3 _ _ _ _ H1 H2 H3 Hp)).
Defined.

(** C9.  The default [getPassportStrategy] returns [null] for every pipe; the
    default [getPassportAuthorizationParams] returns a new object without any
    property; and the default [passportAuthCallbackPostProcessing] calls its
    callback exactly once, with no argument: it is that one call, the log
    grows by it alone, and with a function of the caller's the outcome and
    the heap are those of the callback. *)
Theorem C9_passport_defaults β (pipe info callback : value) s :
  Connector.getPassportStrategy pipe = VNull
  ∧ (let params := fresh (dom (heap s)) in
     heap s !! params = None
     ∧ Connector.getPassportAuthorizationParams s =
         (Normal (VObject params),
          State (<[params := object_literal []]> (heap s)) (log s))
     ∧ props (object_literal []) = ∅)
  ∧ Connector.passportAuthCallbackPostProcessing β info pipe callback s
    = invoke β callback VUndefined [] s
  ∧ (is_function (heap s) callback →
     log (Connector.passportAuthCallbackPostProcessing β info pipe callback s).2
     = log s ++ [Call callback VUndefined []])
  ∧ (function_code (heap s) callback = Some Opaque →
     Connector.passportAuthCallbackPostProcessing β info pipe callback s
     = ((β (Call callback VUndefined []) (heap s)).1,
        State (β (Call callback VUndefined []) (heap s)).2
              (log s ++ [Call callback VUndefined []]))).
Proof.
  split; [done|]. split; [|split; [done|split]].
  - split; [apply fresh_lookup|]. done.
  - intros Hf. by apply invoke_log.
  - apply invoke_opaque.
Qed.

Lemma C9_witness :
  is_function (heap (State callback_heap [])) (VObject callback_fn)
  ∧ function_code (heap (State callback_heap [])) (VObject callback_fn) = Some Opaque
  ∧ log (Connector.passportAuthCallbackPostProcessing silent (VString "info")
           (VString "pipe") (VObject callback_fn) (State callback_heap [])).2
    = [Call (VObject callback_fn) VUndefined []]
  ∧ Connector.passportAuthCallbackPostProcessing
      (λ _ h, (Thrown (Raised (VString "denied")), h)) (VString "info")
      (VString "pipe") (VObject callback_fn) (State callback_heap [])
    = (Thrown (Raised (VString "denied")),
       State callback_heap [Call (VObject callback_fn) VUndefined []]).
Proof.
  assert (is_function (heap (State callback_heap [])) (VObject callback_fn)) as Hf
    by (exists Opaque; by vm_compute).
  assert (function_code (heap (State callback_heap [])) (VObject callback_fn)
          = Some Opaque) as Ho by (by vm_compute).
  split_and!; [exact Hf | exact Ho | |].
  - exact (proj1 (proj2 (proj2 (proj2 (C9_passport_defaults silent (VString "pipe")
                    (VString "info") (VObject callback_fn) (State callback_heap []))))) Hf).
  - exact (proj2 (proj2 (proj2 (proj2 (C9_passport_defaults
                    (λ _ h, (Thrown (Raised (VString "denied")), h)) (VString "pipe")
                    (VString "info") (VObject callback_fn) (State callback_heap []))))) Ho).
Defined.





(** * Further properties of the connector *)

(** ** More on the heap and on construction *)

Lemma fresh_ne (h : gmap loc object) l o : h !! l = Some o → l ≠ fresh (dom h).
Proof. intros Hl ->. by rewrite fresh_lookup in Hl. Qed.

Lemma lookup_alloc_None (h : gmap loc object) l x :
  <[fresh (dom h) := x]> h !! l = None → h !! l = None.
Proof.
  destruct (decide (fresh (dom h) = l)) as [<-|Hne].
  - by rewrite lookup_insert_eq.
  - by rewrite lookup_insert_ne.
Qed.

Lemma find_prop_inherit h l o k :
  h !! ObjectPrototype = Some object_prototype →
  h !! l = Some o → proto o = Some ObjectPrototype →
  find_prop (chain_bound h) h l k =
    match props o !! k with
    | Some p => Some p
    | None => props object_prototype !! k
    end.
Proof.
  intros H1 Hl Hp. unfold chain_bound. cbn [find_prop].
  rewrite Hl. destruct (props o !! k); [done|].
  rewrite Hp, H1. by destruct (props object_prototype !! k).
Qed.

Lemma merged_has_defaults e o k :
  k = "useOAuth" ∨ k = "extraRequiredFields" → has_own (merged e o) k = true.
Proof.
  intros Hk. unfold has_own. rewrite merged_lookup.
  destruct (props o !! k); [done|]. by destruct Hk as [-> | ->].
Qed.

Lemma merged_idempotent e e' o : merged e' (merged e o) = merged e o.
Proof.
  unfold merged at 1. unfold add_default.
  rewrite (merged_has_defaults e o "useOAuth") by auto.
  by rewrite (merged_has_defaults e o "extraRequiredFields") by auto.
Qed.

Lemma merged_value e o k :
  literal_shaped o →
  match props (merged e o) !! k with Some (Data v) => v | _ => VNull end
  = match props o !! k with Some (Data v) => v | _ => default_value e k end.
Proof.
  intros (_ & _ & Hd). rewrite merged_lookup. unfold default_value.
  destruct (props o !! k) as [p|] eqn:Hk.
  - by destruct (Hd _ _ Hk) as [v ->].
  - by destruct ((list_to_map (Connector.defaults e) : gmap string value) !! k).
Qed.

Section ExactStates.

Variable β : call → gmap loc object → result value * gmap loc object.

(** The state a construction on a plain bag ends in. *)
Lemma connector_object_exact s l o :
  pristine (heap s) → plain (heap s) l o → mutable o → unshadowed o →
  let st := fresh (dom (heap s)) in
  let h0 := <[st := array_literal []]> (heap s) in
  let e := fresh (dom h0) in
  let h1 := <[e := array_literal []]> h0 in
  let d := fresh (dom h1) in
  let h2 := <[d := object_literal (Connector.defaults e)]> h1 in
  Connector.connector β (VObject l) s =
    (Normal (Connector.Closure VNull VNull (VObject st) (VObject l)),
     State (<[l := merged e o]> h2)
           (log s ++ [hasOwnProperty_call l "useOAuth";
                      hasOwnProperty_call l "extraRequiredFields"])).
Proof.
  intros Hh Hl Hm Hu st h0 e h1 d h2. unfold Connector.connector.
  unfold bind at 1, alloc at 1. cbn [truthy]. unfold bind at 1, ret at 1.
  fold st. fold h0.
  rewrite (bind_normal _ _ _ _ _
             (merge_defaults_plain β (State h0 (log s)) l o
                ltac:(by apply pristine_alloc) ltac:(by apply plain_alloc) Hm Hu)).
  done.
Qed.

(** The state a construction without usable argument ends in. *)
Lemma connector_falsy_exact s arg :
  truthy arg = false → pristine (heap s) →
  let st := fresh (dom (heap s)) in
  let h0 := <[st := array_literal []]> (heap s) in
  let bag := fresh (dom h0) in
  let hb := <[bag := object_literal []]> h0 in
  let e := fresh (dom hb) in
  let h1 := <[e := array_literal []]> hb in
  let d := fresh (dom h1) in
  let h2 := <[d := object_literal (Connector.defaults e)]> h1 in
  Connector.connector β arg s =
    (Normal (Connector.Closure VNull VNull (VObject st) (VObject bag)),
     State (<[bag := merged e (object_literal [])]> h2)
           (log s ++ [hasOwnProperty_call bag "useOAuth";
                      hasOwnProperty_call bag "extraRequiredFields"])).
Proof.
  intros Harg Hh st h0 bag hb e h1 d h2. unfold Connector.connector.
  unfold bind at 1, alloc at 1. rewrite Harg.
  unfold bind at 1. unfold bind at 1, alloc at 1, ret at 1. cbn [heap log].
  fold st. fold h0. fold bag. fold hb.
  rewrite (bind_normal _ _ _ _ _
             (merge_defaults_plain β (State hb (log s)) bag (object_literal [])
                ltac:(by do 2 apply pristine_alloc)
                ltac:(apply plain_update, object_literal_shaped)
                ltac:(done) ltac:(done))).
  done.
Qed.

End ExactStates.

(** ** Construction *)

(** X1.  A construction without argument, or with any falsy argument, always
    succeeds.  The connector has [null] for id and label, a new empty array
    for its steps, and a new bag that holds the two defaults and nothing
    else: [getOption('useOAuth')] is [true], [getOption('extraRequiredFields')]
    is a new empty array, other than the array of the steps, and [getOption]
    of any other key is [null]. *)
Theorem X1_construction_without_options β s (arg : value) :
  truthy arg = false → pristine (heap s) →
  ∃ c s' st bag e,
    Connector.connector β arg s = (Normal c, s')
    ∧ Connector.getId c = VNull ∧ Connector.getLabel c = VNull
    ∧ Connector.getSteps c = VObject st
    ∧ heap s !! st = None ∧ heap s' !! st = Some (array_literal [])
    ∧ Connector.options c = VObject bag ∧ heap s !! bag = None
    ∧ heap s !! e = None ∧ heap s' !! e = Some (array_literal []) ∧ e ≠ st
    ∧ (Connector.getOption β c "useOAuth" s').1 = Normal (VBool true)
    ∧ (Connector.getOption β c "extraRequiredFields" s').1 = Normal (VObject e)
    ∧ ∀ k, k ≠ "useOAuth" → k ≠ "extraRequiredFields" →
           (Connector.getOption β c k s').1 = Normal VNull.
Proof.
  intros Harg Hh. pose proof (connector_falsy_exact β s arg Harg Hh) as Hc.
  cbv zeta in Hc.
  set (st := fresh (dom (heap s))) in *.
  set (h0 := <[st := array_literal []]> (heap s)) in *.
  set (bag := fresh (dom h0)) in *.
  set (hb := <[bag := object_literal []]> h0) in *.
  set (e := fresh (dom hb)) in *.
  set (h1 := <[e := array_literal []]> hb) in *.
  set (d := fresh (dom h1)) in *.
  set (h2 := <[d := object_literal (Connector.defaults e)]> h1) in *.
  assert (h0 !! st = Some (array_literal [])) as Hst0 by apply lookup_insert_eq.
  assert (hb !! st = Some (array_literal [])) as Hstb by (by apply lookup_alloc).
  assert (hb !! bag = Some (object_literal [])) as Hbb by apply lookup_insert_eq.
  assert (h1 !! e = Some (array_literal [])) as He1 by apply lookup_insert_eq.
  assert (h2 !! e = Some (array_literal [])) as He2 by (by apply lookup_alloc).
  assert (h2 !! st = Some (array_literal [])) as Hst2 by (by do 2 apply lookup_alloc).
  assert (bag ≠ st) as Hbst by (symmetry; by eapply fresh_ne).
  assert (bag ≠ e) as Hbe by (by eapply fresh_ne).
  assert (pristine h2) as Hh2 by (by do 4 apply pristine_alloc).
  assert (plain h2 bag (object_literal [])) as Hl2.
  { do 2 apply plain_alloc. apply plain_update, object_literal_shaped. }
  set (o' := merged e (object_literal [])) in *.
  assert (literal_shaped o') as Ho' by apply merged_shaped, object_literal_shaped.
  assert (pristine (<[bag := o']> h2)) as Hh' by (by apply (pristine_update _ _ _ _ Hh2 Hl2)).
  assert (plain (<[bag := o']> h2) bag o') as Hl' by (by apply plain_update).
  assert (unshadowed o') as Hu' by (by apply merged_unshadowed).
  eexists _, _, st, bag, e. split; [exact Hc|]. cbn [heap].
  assert (∀ k, (Connector.getOption β
                  (Connector.Closure VNull VNull (VObject st) (VObject bag)) k
                  (State (<[bag := o']> h2)
                     (log s ++ [hasOwnProperty_call bag "useOAuth";
                                hasOwnProperty_call bag "extraRequiredFields"]))).1
               = Normal (default_value e k)) as Hget.
  { intros k. rewrite (getOption_plain β _ _ bag o' k) by done.
    cbn [fst]. unfold o'. rewrite merged_value by apply object_literal_shaped.
    by replace (props (object_literal []) !! k) with (@None property)
      by (symmetry; apply lookup_empty). }
  split_and!; try done.
  - apply fresh_lookup.
  - by rewrite lookup_insert_ne.
  - apply (lookup_alloc_None _ _ (array_literal [])), fresh_lookup.
  - apply (lookup_alloc_None _ _ (array_literal [])),
      (lookup_alloc_None _ _ (object_literal [])), fresh_lookup.
  - by rewrite lookup_insert_ne.
  - symmetry. by eapply fresh_ne.
  - intros k Hk1 Hk2. rewrite Hget. unfold default_value.
    cbn [Connector.defaults list_to_map foldr fst snd].
    by rewrite !lookup_insert_ne, lookup_empty.
Qed.

Lemma X1_witness :
  truthy VNull = false ∧ pristine (heap start)
  ∧ ∃ c s',
      Connector.connector silent VNull start = (Normal c, s')
      ∧ Connector.getId c = VNull
      ∧ (Connector.getOption silent c "useOAuth" s').1 = Normal (VBool true).
Proof.
  assert (truthy VNull = false) as Ha by reflexivity.
  assert (pristine (heap start)) as Hh.
  { split; [done|]. split; eexists; split; by vm_compute. }
  split_and!; [exact Ha | exact Hh |].
  destruct (X1_construction_without_options silent start VNull Ha Hh)
    as (c & s' & st & bag & e & Hc & Hid & _ & _ & _ & _ & _ & _ & _ & _ & _ & Hu & _).
  exists c, s'. split_and!; [exact Hc | exact Hid | exact Hu].
Defined.

(** X2.  After a construction with a plain object, [getOption(k)] returns,
    for every key: the value the caller's object had for [k] when it had
    one, the default of [k] otherwise ([true] for [useOAuth], a new empty
    array for [extraRequiredFields]), and [null] when there is neither. *)
Theorem X2_options_after_construction β s l o :
  pristine (heap s) → plain (heap s) l o → mutable o → unshadowed o →
  ∃ c s' e,
    Connector.connector β (VObject l) s = (Normal c, s')
    ∧ heap s !! e = None ∧ heap s' !! e = Some (array_literal [])
    ∧ default_value e "useOAuth" = VBool true
    ∧ default_value e "extraRequiredFields" = VObject e
    ∧ (∀ k, k ≠ "useOAuth" → k ≠ "extraRequiredFields" → default_value e k = VNull)
    ∧ ∀ k,
        (∀ v, props o !! k = Some (Data v) →
              (Connector.getOption β c k s').1 = Normal v)
        ∧ (props o !! k = None →
           (Connector.getOption β c k s').1 = Normal (default_value e k)).
Proof.
  intros Hh Hl Hm Hu.
  destruct (connector_object β s l o Hh Hl Hm Hu)
    as (st & e & s' & Hc & Hh' & Hl' & He & He').
  eexists _, s', e. split_and!; try done.
  - intros k Hk1 Hk2. unfold default_value.
    cbn [Connector.defaults list_to_map foldr fst snd].
    by rewrite !lookup_insert_ne, lookup_empty.
  - intros k.
    rewrite (getOption_plain β _ s' l (merged e o) k);
      [|done|done|done|by apply merged_unshadowed].
    cbn [fst]. rewrite merged_value by apply Hl.
    split; [intros v Hk | intros Hk]; by rewrite Hk.
Qed.

Lemma X2_witness :
  pristine token_heap
  ∧ plain token_heap token_bag
      (object_literal [("extraRequiredFields", VObject token_array)])
    ∧ mutable (object_literal [("extraRequiredFields", VObject token_array)])
  ∧ unshadowed (object_literal [("extraRequiredFields", VObject token_array)])
  ∧ ∃ c s',
      Connector.connector silent (VObject token_bag) (State token_heap []) = (Normal c, s')
      ∧ (Connector.getOption silent c "extraRequiredFields" s').1
        = Normal (VObject token_array)
      ∧ (Connector.getOption silent c "useOAuth" s').1 = Normal (VBool true).
Proof.
  assert (pristine token_heap) as Hh.
  { split; [done|]. split; eexists; split; by vm_compute. }
  assert (plain token_heap token_bag
            (object_literal [("extraRequiredFields", VObject token_array)])) as Hl.
  { split; [by vm_compute | apply object_literal_shaped]. }
  assert (mutable (object_literal [("extraRequiredFields", VObject token_array)]))
    as Hm by done.
  assert (unshadowed (object_literal [("extraRequiredFields", VObject token_array)]))
    as Hu by done.
  split_and!; [exact Hh | exact Hl | exact Hm | exact Hu |].
  destruct (X2_options_after_construction silent (State token_heap []) token_bag _
              Hh Hl Hm Hu) as (c & s' & e & Hc & _ & _ & Hd & _ & _ & Hget).
  exists c, s'. split_and!; [exact Hc | |].
  - by apply (proj1 (Hget "extraRequiredFields")).
  - rewrite (proj2 (Hget "useOAuth")) by done. by rewrite Hd.
Defined.

Section Frames.

Variable β : call → gmap loc object → result value * gmap loc object.

(** Construction on a plain bag, with all it leaves behind. *)
Lemma connector_object_full s l o :
  pristine (heap s) → plain (heap s) l o → mutable o → unshadowed o →
  ∃ st e s',
    Connector.connector β (VObject l) s =
      (Normal (Connector.Closure VNull VNull (VObject st) (VObject l)), s')
    ∧ pristine (heap s') ∧ plain (heap s') l (merged e o)
    ∧ heap s !! st = None ∧ heap s' !! st = Some (array_literal [])
    ∧ heap s !! e = None ∧ heap s' !! e = Some (array_literal [])
    ∧ (∀ l' x, l' ≠ l → heap s !! l' = Some x → heap s' !! l' = Some x)
    ∧ log s' = log s ++ [hasOwnProperty_call l "useOAuth";
                         hasOwnProperty_call l "extraRequiredFields"].
Proof.
  intros Hh Hl Hm Hu. pose proof (connector_object_exact β s l o Hh Hl Hm Hu) as Hc.
  cbv zeta in Hc.
  set (st := fresh (dom (heap s))) in *.
  set (h0 := <[st := array_literal []]> (heap s)) in *.
  set (e := fresh (dom h0)) in *.
  set (h1 := <[e := array_literal []]> h0) in *.
  set (d := fresh (dom h1)) in *.
  set (h2 := <[d := object_literal (Connector.defaults e)]> h1) in *.
  assert (h2 !! st = Some (array_literal [])) as Hst2.
  { do 2 apply lookup_alloc. apply lookup_insert_eq. }
  assert (h2 !! e = Some (array_literal [])) as He2.
  { apply lookup_alloc. apply lookup_insert_eq. }
  assert (plain h2 l o) as Hl2 by (by do 3 apply plain_alloc).
  assert (l ≠ st) as Hlst by (destruct Hl; by eapply fresh_ne).
  assert (l ≠ e) as Hle.
  { apply (fresh_ne h0 l o). by apply lookup_alloc; destruct Hl. }
  eexists st, e, _. split; [exact Hc|]. cbn [heap log]. split_and!.
  - apply (pristine_update _ l o); [by do 3 apply pristine_alloc|done|].
    apply merged_shaped, Hl.
  - apply plain_update, merged_shaped, Hl.
  - apply fresh_lookup.
  - by rewrite lookup_insert_ne.
  - apply (lookup_alloc_None _ _ (array_literal [])), fresh_lookup.
  - by rewrite lookup_insert_ne.
  - intros l' x Hne Hx. rewrite lookup_insert_ne by done. by do 3 apply lookup_alloc.
  - done.
Qed.

(** Construction without usable argument, with all it leaves behind. *)
Lemma connector_falsy_full s arg :
  truthy arg = false → pristine (heap s) →
  ∃ st bag e s',
    Connector.connector β arg s =
      (Normal (Connector.Closure VNull VNull (VObject st) (VObject bag)), s')
    ∧ pristine (heap s') ∧ plain (heap s') bag (merged e (object_literal []))
    ∧ heap s !! bag = None
    ∧ (∀ l' x, heap s !! l' = Some x → heap s' !! l' = Some x).
Proof.
  intros Harg Hh. pose proof (connector_falsy_exact β s arg Harg Hh) as Hc.
  cbv zeta in Hc.
  set (st := fresh (dom (heap s))) in *.
  set (h0 := <[st := array_literal []]> (heap s)) in *.
  set (bag := fresh (dom h0)) in *.
  set (hb := <[bag := object_literal []]> h0) in *.
  set (e := fresh (dom hb)) in *.
  set (h1 := <[e := array_literal []]> hb) in *.
  set (d := fresh (dom h1)) in *.
  set (h2 := <[d := object_literal (Connector.defaults e)]> h1) in *.
  assert (plain h2 bag (object_literal [])) as Hl2.
  { do 2 apply plain_alloc. apply plain_update, object_literal_shaped. }
  eexists st, bag, e, _. split; [exact Hc|]. cbn [heap]. split_and!.
  - apply (pristine_update _ bag (object_literal []));
      [by do 4 apply pristine_alloc|done|].
    apply merged_shaped, object_literal_shaped.
  - apply plain_update, merged_shaped, object_literal_shaped.
  - apply (lookup_alloc_None _ _ (array_literal [])), fresh_lookup.
  - intros l' x Hx.
    assert (h0 !! l' = Some x) as Hx0 by (by apply lookup_alloc).
    rewrite lookup_insert_ne by (symmetry; by eapply fresh_ne).
    by do 3 apply lookup_alloc.
Qed.

End Frames.

(** X3.  A construction with a plain object that can be written only adds
    to that object: each binding of the caller is kept as it was, the keys
    afterwards are the caller's keys together with [useOAuth] and
    [extraRequiredFields], and the object keeps its prototype and stays
    extensible. *)
Theorem X3_construction_frame β s l o :
  pristine (heap s) → plain (heap s) l o → mutable o → unshadowed o →
  ∃ c s' o',
    Connector.connector β (VObject l) s = (Normal c, s')
    ∧ heap s' !! l = Some o'
    ∧ (∀ k p, props o !! k = Some p → props o' !! k = Some p)
    ∧ (∀ k, has_own o' k = true
            ↔ has_own o k = true ∨ k = "useOAuth" ∨ k = "extraRequiredFields")
    ∧ proto o' = proto o ∧ mutable o'.
Proof.
  intros Hh Hl Hm Hu.
  destruct (connector_object_full β s l o Hh Hl Hm Hu)
    as (st & e & s' & Hc & _ & (Hl' & Ho') & _).
  eexists _, s', (merged e o). split_and!; try done.
  - intros k p. apply merged_kept.
  - intros k. unfold has_own. rewrite merged_lookup.
    destruct (props o !! k) as [p|] eqn:Hk; [by split; auto|].
    cbn [Connector.defaults list_to_map foldr fst snd].
    destruct (decide (k = "useOAuth")) as [->|H1]; [by split; auto|].
    destruct (decide (k = "extraRequiredFields")) as [->|H2]; [by split; auto|].
    rewrite !lookup_insert_ne, lookup_empty by done.
    split; [done | intros Hor; destruct_or!; by simplify_eq].
  - destruct Ho' as (-> & _). by destruct Hl as (_ & -> & _).
  - by apply merged_mutable.
Qed.

Lemma X3_witness :
  pristine token_heap
  ∧ plain token_heap token_bag
      (object_literal [("extraRequiredFields", VObject token_array)])
  ∧ mutable (object_literal [("extraRequiredFields", VObject token_array)])
  ∧ unshadowed (object_literal [("extraRequiredFields", VObject token_array)])
  ∧ ∃ c s' o',
      Connector.connector silent (VObject token_bag) (State token_heap []) = (Normal c, s')
      ∧ heap s' !! token_bag = Some o'
      ∧ props o' !! "extraRequiredFields" = Some (Data (VObject token_array))
      ∧ has_own o' "useOAuth" = true
      ∧ has_own o' "region" = false.
Proof.
  assert (pristine token_heap) as Hh.
  { split; [done|]. split; eexists; split; by vm_compute. }
  assert (plain token_heap token_bag
            (object_literal [("extraRequiredFields", VObject token_array)])) as Hl.
  { split; [by vm_compute | apply object_literal_shaped]. }
  assert (mutable (object_literal [("extraRequiredFields", VObject token_array)]))
    as Hm by done.
  assert (unshadowed (object_literal [("extraRequiredFields", VObject token_array)]))
    as Hu by done.
  split_and!; [exact Hh | exact Hl | exact Hm | exact Hu |].
  destruct (X3_construction_frame silent (State token_heap []) token_bag _ Hh Hl Hm Hu)
    as (c & s' & o' & Hc & Ho' & Hkeep & Hkeys & _).
  exists c, s', o'. split_and!; [exact Hc | exact Ho' | by apply Hkeep | |].
  - apply Hkeys. by right; left.
  - destruct (has_own o' "region") eqn:Hr; [|done].
    apply Hkeys in Hr. by destruct Hr as [Hr | [Hr | Hr]].
Defined.

(** X4.  Two connectors constructed with the same plain object share it as
    their bag: the second construction leaves the object as the first one
    left it, and an option set through one connector is read through the
    other.  Their step arrays are two different objects. *)
Theorem X4_connectors_share_the_bag β s l o :
  pristine (heap s) → plain (heap s) l o → mutable o → unshadowed o →
  ∃ c1 s1 c2 s2,
    Connector.connector β (VObject l) s = (Normal c1, s1)
    ∧ Connector.connector β (VObject l) s1 = (Normal c2, s2)
    ∧ Connector.options c1 = Connector.options c2
    ∧ heap s2 !! l = heap s1 !! l
    ∧ Connector.getSteps c1 ≠ Connector.getSteps c2
    ∧ ∀ k v, k ≠ "__proto__" → k ≠ "hasOwnProperty" →
        ∃ s3, Connector.setOption β c1 k v s2 = (Normal tt, s3)
              ∧ (Connector.getOption β c2 k s3).1 = Normal v.
Proof.
  intros Hh Hl Hm Hu.
  destruct (connector_object_full β s l o Hh Hl Hm Hu)
    as (st1 & e1 & s1 & Hc1 & Hh1 & Hl1 & _ & Hst1 & _).
    assert (unshadowed (merged e1 o)) as Hu1 by (by apply merged_unshadowed).
  assert (mutable (merged e1 o)) as Hm1 by (by apply merged_mutable).
  destruct (connector_object_full β s1 l (merged e1 o) Hh1 Hl1 Hm1 Hu1)
    as (st2 & e2 & s2 & Hc2 & Hh2 & Hl2 & Hst2 & _).
  rewrite merged_idempotent in Hl2.
  eexists _, s1, _, s2. split_and!; try done.
  - destruct Hl1 as (-> & _). by destruct Hl2 as (-> & _).
  - cbn. intros [= ->]. congruence.
  - intros k v Hk1 Hk2. eexists. split.
    + by apply (setOption_plain β _ s2 l (merged e1 o)).
    + assert (literal_shaped (set_own k v (merged e1 o))) as Ho
        by apply set_own_shaped, Hl2.
      rewrite (getOption_plain β _ _ l (set_own k v (merged e1 o)) k); try done.
      * cbn [props set_own fst]. by rewrite lookup_insert_eq.
      * by apply (pristine_update _ l (merged e1 o)).
      * by apply plain_update.
      * unfold unshadowed. cbn [props set_own]. by rewrite lookup_insert_ne.
Qed.

Lemma X4_witness :
  pristine token_heap
  ∧ plain token_heap token_bag
      (object_literal [("extraRequiredFields", VObject token_array)])
    ∧ mutable (object_literal [("extraRequiredFields", VObject token_array)])
  ∧ unshadowed (object_literal [("extraRequiredFields", VObject token_array)])
  ∧ ∃ c1 s1 c2 s2 s3,
      Connector.connector silent (VObject token_bag) (State token_heap []) = (Normal c1, s1)
      ∧ Connector.connector silent (VObject token_bag) s1 = (Normal c2, s2)
      ∧ Connector.setOption silent c1 "region" (VString "eu") s2 = (Normal tt, s3)
      ∧ (Connector.getOption silent c2 "region" s3).1 = Normal (VString "eu").
Proof.
  assert (pristine token_heap) as Hh.
  { split; [done|]. split; eexists; split; by vm_compute. }
  assert (plain token_heap token_bag
            (object_literal [("extraRequiredFields", VObject token_array)])) as Hl.
  { split; [by vm_compute | apply object_literal_shaped]. }
  assert (mutable (object_literal [("extraRequiredFields", VObject token_array)]))
    as Hm by done.
  assert (unshadowed (object_literal [("extraRequiredFields", VObject token_array)]))
    as Hu by done.
  split_and!; [exact Hh | exact Hl | exact Hm | exact Hu |].
  destruct (X4_connectors_share_the_bag silent (State token_heap []) token_bag _
              Hh Hl Hm Hu) as (c1 & s1 & c2 & s2 & Hc1 & Hc2 & _ & _ & _ & Hset).
  destruct (Hset "region" (VString "eu")) as (s3 & Hs & Hg); [done|done|].
  exists c1, s1, c2, s2, s3. split_and!; [exact Hc1 | exact Hc2 | exact Hs | exact Hg].
Defined.

(** X5.  Two connectors constructed without options share nothing: their
    bags are two different objects, and setting an option on the first never
    changes what the second reads, for any key. *)
Theorem X5_connectors_without_options_are_isolated β s (a1 a2 : value) :
  pristine (heap s) → truthy a1 = false → truthy a2 = false →
  ∃ c1 s1 c2 s2,
    Connector.connector β a1 s = (Normal c1, s1)
    ∧ Connector.connector β a2 s1 = (Normal c2, s2)
    ∧ Connector.options c1 ≠ Connector.options c2
    ∧ ∀ k v k', k ≠ "__proto__" →
        ∃ s3, Connector.setOption β c1 k v s2 = (Normal tt, s3)
              ∧ (Connector.getOption β c2 k' s3).1
                = (Connector.getOption β c2 k' s2).1.
Proof.
  intros Hh Ha1 Ha2.
  destruct (connector_falsy_full β s a1 Ha1 Hh)
    as (st1 & b1 & e1 & s1 & Hc1 & Hh1 & Hl1 & _).
  destruct (connector_falsy_full β s1 a2 Ha2 Hh1)
    as (st2 & b2 & e2 & s2 & Hc2 & Hh2 & Hl2 & Hb2 & Hframe).
  set (o1 := merged e1 (object_literal [])) in *.
  set (o2 := merged e2 (object_literal [])) in *.
  assert (b1 ≠ b2) as Hne by (destruct Hl1; congruence).
  assert (plain (heap s2) b1 o1) as Hl1'.
  { destruct Hl1 as (Hl1 & Ho1). split; [by apply Hframe | done]. }
    assert (unshadowed o2) as Hu2 by (by apply merged_unshadowed).
  assert (mutable o1) as Hm1 by (by apply merged_mutable).
  eexists _, s1, _, s2. split_and!; try done.
  - cbn. congruence.
  - intros k v k' Hk. eexists. split.
    + by apply (setOption_plain β _ s2 b1 o1).
    + rewrite (getOption_plain β _ s2 b2 o2 k') by done.
      rewrite (getOption_plain β _ _ b2 o2 k'); try done.
      * apply (pristine_update _ b1 o1); [done|done|].
        apply set_own_shaped, Hl1'.
      * destruct Hl2 as (Hl2 & Ho2). split; [|done]. cbn [heap].
        by rewrite lookup_insert_ne.
Qed.

Lemma X5_witness :
  pristine (heap start) ∧ truthy VUndefined = false ∧ truthy VNull = false
  ∧ ∃ c1 s1 c2 s2 s3,
      Connector.connector silent VUndefined start = (Normal c1, s1)
      ∧ Connector.connector silent VNull s1 = (Normal c2, s2)
      ∧ Connector.setOption silent c1 "useOAuth" (VBool false) s2 = (Normal tt, s3)
      ∧ (Connector.getOption silent c2 "useOAuth" s3).1
        = (Connector.getOption silent c2 "useOAuth" s2).1.
Proof.
  assert (pristine (heap start)) as Hh.
  { split; [done|]. split; eexists; split; by vm_compute. }
  assert (truthy VUndefined = false) as H1 by reflexivity.
  assert (truthy VNull = false) as H2 by reflexivity.
  split_and!; [exact Hh | exact H1 | exact H2 |].
  destruct (X5_connectors_without_options_are_isolated silent start VUndefined VNull
              Hh H1 H2) as (c1 & s1 & c2 & s2 & Hc1 & Hc2 & _ & Hset).
  destruct (Hset "useOAuth" (VBool false) "useOAuth") as (s3 & Hs & Hg); [done|].
  exists c1, s1, c2, s2, s3. split_and!; [exact Hc1 | exact Hc2 | exact Hs | exact Hg].
Defined.

(** ** The option accessors *)

Lemma set_own_set_own k v w o : set_own k w (set_own k v o) = set_own k w o.
Proof. unfold set_own. cbn [props proto kind_of]. by rewrite insert_insert_eq. Qed.

(** X6.  On a plain bag [getOption] only reads, and only own keys: the heap
    is left as it was; a key of the bag gives its value; a key the bag does
    not have gives [null] even where a plain read [options[k]] would find an
    inherited member of [Object.prototype], such as [toString]. *)
Theorem X6_getOption_reads_own_keys_only β (c : Connector.instance) s l o k :
  Connector.options c = VObject l →
  pristine (heap s) → plain (heap s) l o → unshadowed o →
  heap (Connector.getOption β c k s).2 = heap s
  ∧ (∀ v, props o !! k = Some (Data v) →
          (Connector.getOption β c k s).1 = Normal v)
  ∧ (props o !! k = None →
     (Connector.getOption β c k s).1 = Normal VNull
     ∧ ∀ x, props object_prototype !! k = Some (Data x) →
            attribute (heap s) (VObject l) k = Some x).
Proof.
  intros Hc Hh Hl Hu. rewrite (getOption_plain β c s l o k) by done.
  split_and!; [done | by intros v -> |].
  intros Hk. rewrite Hk. split; [done|]. intros x Hx.
  unfold attribute. cbn [lookup_prop].
  by rewrite (find_prop_plain _ _ _ _ Hh Hl), Hk, Hx.
Qed.

Lemma X6_witness :
  Connector.options (Connector.Closure VNull VNull VNull (VObject token_bag))
    = VObject token_bag
  ∧ pristine token_heap
  ∧ plain token_heap token_bag
      (object_literal [("extraRequiredFields", VObject token_array)])
  ∧ unshadowed (object_literal [("extraRequiredFields", VObject token_array)])
  ∧ (Connector.getOption silent
       (Connector.Closure VNull VNull VNull (VObject token_bag)) "toString"
       (State token_heap [])).1 = Normal VNull
  ∧ attribute token_heap (VObject token_bag) "toString" = Some (VObject 14%positive).
Proof.
  assert (pristine token_heap) as Hh.
  { split; [done|]. split; eexists; split; by vm_compute. }
  assert (plain token_heap token_bag
            (object_literal [("extraRequiredFields", VObject token_array)])) as Hl.
  { split; [by vm_compute | apply object_literal_shaped]. }
  assert (unshadowed (object_literal [("extraRequiredFields", VObject token_array)]))
    as Hu by done.
  split_and!; [reflexivity | exact Hh | exact Hl | exact Hu | |];
    destruct (X6_getOption_reads_own_keys_only silent
                (Connector.Closure VNull VNull VNull (VObject token_bag))
                (State token_heap []) token_bag _ "toString" eq_refl Hh Hl Hu)
      as (_ & _ & Habs);
    destruct Habs as (Hnull & Hattr); [done | exact Hnull | done |].
  by apply Hattr.
Defined.

(** X7.  On a plain bag, [setOption(k, v)] for a key other than [__proto__]
    and [hasOwnProperty] calls no function and changes one key of one
    object: every other key reads as before, every other object is as
    before.  A second [setOption] on the same key overwrites the first: the
    heap is the one the second write alone would give. *)
Theorem X7_setOption_frame β (c : Connector.instance) s l o k v :
  Connector.options c = VObject l →
  pristine (heap s) → plain (heap s) l o → mutable o → unshadowed o →
  k ≠ "__proto__" → k ≠ "hasOwnProperty" →
  ∃ s1,
    Connector.setOption β c k v s = (Normal tt, s1)
    ∧ log s1 = log s
    ∧ (∀ l', l' ≠ l → heap s1 !! l' = heap s !! l')
    ∧ (∀ k', k' ≠ k →
         (Connector.getOption β c k' s1).1 = (Connector.getOption β c k' s).1)
    ∧ ∀ w, ∃ s2,
        Connector.setOption β c k w s1 = (Normal tt, s2)
        ∧ heap s2 = heap (Connector.setOption β c k w s).2
        ∧ (Connector.getOption β c k s2).1 = Normal w.
Proof.
  intros Hc Hh Hl Hm Hu Hk1 Hk2.
  assert (∀ x, mutable (set_own k x o)) as Hm1 by (intros x; by apply set_own_mutable).
  assert (literal_shaped (set_own k v o)) as Ho by apply set_own_shaped, Hl.
  assert (pristine (<[l := set_own k v o]> (heap s))) as Hh1
    by (by apply (pristine_update _ l o)).
  assert (plain (<[l := set_own k v o]> (heap s)) l (set_own k v o)) as Hl1
    by (by apply plain_update).
  assert (∀ x, unshadowed (set_own k x o)) as Hu1.
  { intros x. unfold unshadowed. cbn [props set_own]. by rewrite lookup_insert_ne. }
  eexists. split; [by apply (setOption_plain β c s l o)|]. cbn [heap log].
  split_and!.
  - done.
  - intros l' Hne. by rewrite lookup_insert_ne.
  - intros k' Hne. rewrite (getOption_plain β c _ l (set_own k v o) k') by done.
    rewrite (getOption_plain β c s l o k') by done.
    cbn [props set_own fst]. by rewrite lookup_insert_ne.
  - intros w. eexists. split; [by apply (setOption_plain β c _ l (set_own k v o))|].
    cbn [heap]. rewrite (setOption_plain β c s l o) by done. cbn [heap snd].
    rewrite insert_insert_eq, set_own_set_own. split; [done|].
    rewrite (getOption_plain β c _ l (set_own k w o) k); try done.
    + cbn [props set_own fst]. by rewrite lookup_insert_eq.
    + apply (pristine_update _ l o); [done|done|]. apply set_own_shaped, Hl.
    + apply plain_update, set_own_shaped, Hl.
Qed.

Lemma X7_witness :
  Connector.options (Connector.Closure VNull VNull VNull (VObject token_bag))
    = VObject token_bag
  ∧ pristine token_heap
  ∧ plain token_heap token_bag
      (object_literal [("extraRequiredFields", VObject token_array)])
    ∧ mutable (object_literal [("extraRequiredFields", VObject token_array)])
  ∧ unshadowed (object_literal [("extraRequiredFields", VObject token_array)])
  ∧ "region" ≠ "__proto__" ∧ "region" ≠ "hasOwnProperty"
  ∧ ∃ s1,
      Connector.setOption silent
        (Connector.Closure VNull VNull VNull (VObject token_bag))
        "region" (VString "eu") (State token_heap []) = (Normal tt, s1)
      ∧ log s1 = [].
Proof.
  assert (pristine token_heap) as Hh.
  { split; [done|]. split; eexists; split; by vm_compute. }
  assert (plain token_heap token_bag
            (object_literal [("extraRequiredFields", VObject token_array)])) as Hl.
  { split; [by vm_compute | apply object_literal_shaped]. }
  assert (mutable (object_literal [("extraRequiredFields", VObject token_array)]))
    as Hm by done.
  assert (unshadowed (object_literal [("extraRequiredFields", VObject token_array)]))
    as Hu by done.
  assert ("region" ≠ "__proto__") as H1 by done.
  assert ("region" ≠ "hasOwnProperty") as H2 by done.
  split_and!; [reflexivity | exact Hh | exact Hl | exact Hm | exact Hu | exact H1 | exact H2 |].
  destruct (X7_setOption_frame silent
              (Connector.Closure VNull VNull VNull (VObject token_bag))
              (State token_heap []) token_bag _ "region" (VString "eu")
              eq_refl Hh Hl Hm Hu H1 H2) as (s1 & Hs & Hlog & _).
  exists s1. split; [exact Hs | exact Hlog].
Defined.

(** X8.  The key [__proto__] is never stored on a plain bag that does not
    have it: [setOption('__proto__', v)] with a value that is neither an
    object nor [null] calls the setter of [Object.prototype] and leaves every
    object as it was, and [getOption('__proto__')] is [null] before and
    after. *)
Theorem X8_proto_key_is_not_stored β (c : Connector.instance) s l o (v : value) :
  Connector.options c = VObject l →
  pristine (heap s) → plain (heap s) l o → unshadowed o →
  props o !! "__proto__" = None → primitive v → v ≠ VNull →
  Connector.setOption β c "__proto__" v s
    = (Normal tt, State (heap s) (log s ++ [proto_setter_call l v]))
  ∧ (Connector.getOption β c "__proto__" s).1 = Normal VNull
  ∧ (Connector.getOption β c "__proto__"
       (State (heap s) (log s ++ [proto_setter_call l v]))).1 = Normal VNull.
Proof.
  intros Hc Hh Hl Hu Hk Hv Hnull. split_and!.
  - unfold Connector.setOption, set_prop. rewrite Hc. cbn [lookup_prop].
    rewrite (find_prop_plain _ _ _ _ Hh Hl), Hk.
    change (props object_prototype !! "__proto__")
      with (Some (Accessor (VObject ProtoGetterFn) (VObject ProtoSetterFn))).
    destruct Hh as (_ & _ & (f & Hf & Kf)). destruct Hl as (Hl & _).
    unfold bind, invoke, function_code. rewrite Hf, Kf. cbn [builtin].
    rewrite Hl. cbn [head]. by destruct v.
  - by rewrite (getOption_plain β c s l o) by done; rewrite Hk.
  - by rewrite (getOption_plain β c _ l o) by done; rewrite Hk.
Qed.

Lemma X8_witness :
  Connector.options (Connector.Closure VNull VNull VNull (VObject token_bag))
    = VObject token_bag
  ∧ pristine token_heap
  ∧ plain token_heap token_bag
      (object_literal [("extraRequiredFields", VObject token_array)])
  ∧ unshadowed (object_literal [("extraRequiredFields", VObject token_array)])
  ∧ props (object_literal [("extraRequiredFields", VObject token_array)])
      !! "__proto__" = None
  ∧ primitive (VNumber 5) ∧ VNumber 5 ≠ VNull
  ∧ Connector.setOption silent
      (Connector.Closure VNull VNull VNull (VObject token_bag))
      "__proto__" (VNumber 5) (State token_heap [])
    = (Normal tt, State token_heap [proto_setter_call token_bag (VNumber 5)]).
Proof.
  assert (pristine token_heap) as Hh.
  { split; [done|]. split; eexists; split; by vm_compute. }
  assert (plain token_heap token_bag
            (object_literal [("extraRequiredFields", VObject token_array)])) as Hl.
  { split; [by vm_compute | apply object_literal_shaped]. }
  assert (unshadowed (object_literal [("extraRequiredFields", VObject token_array)]))
    as Hu by done.
  assert (props (object_literal [("extraRequiredFields", VObject token_array)])
            !! "__proto__" = None) as Hk by done.
  assert (primitive (VNumber 5)) as Hv by exact I.
  assert (VNumber 5 ≠ VNull) as Hn by done.
  split_and!; [reflexivity | exact Hh | exact Hl | exact Hu | exact Hk | exact Hv
              | exact Hn |].
  exact (proj1 (X8_proto_key_is_not_stored silent
                  (Connector.Closure VNull VNull VNull (VObject token_bag))
                  (State token_heap []) token_bag _ (VNumber 5)
                  eq_refl Hh Hl Hu Hk Hv Hn)).
Defined.

(** ** Serialisation *)

Lemma toJSON_after_accessors
    β (c : Connector.instance) (this : value) s s1 s2 s3 (i lb st p : value) :
  call_method β this "getId" [] s = (Normal i, s1) →
  call_method β this "getLabel" [] s1 = (Normal lb, s2) →
  call_method β this "getSteps" [] s2 = (Normal st, s3) →
  attribute (heap s3) this "path" = Some p →
  Connector.toJSON β c this s =
    (Normal (VObject (fresh (dom (heap s3)))),
     State (<[fresh (dom (heap s3)) := object_literal
                [ ("id", i); ("label", lb); ("steps", st);
                  ("options", Connector.options c);
                  ("path", if truthy p then p else VNull) ]]> (heap s3))
           (log s3)).
Proof.
  intros Hi Hlb Hst Hp. unfold Connector.toJSON.
  rewrite (bind_normal _ _ _ _ _ Hi), (bind_normal _ _ _ _ _ Hlb),
    (bind_normal _ _ _ _ _ Hst).
  unfold bind, get_prop. unfold attribute in Hp.
  destruct (lookup_prop (heap s3) this "path") as [[[x|g f]|]|]; try done;
    by injection Hp as <-.
Qed.

(** X9.  What [toJSON()] returns is a shallow snapshot: its [options] field
    is the bag itself, not a copy.  Once the three accessors have returned,
    [toJSON] leaves the bag as they left it; an option set afterwards, on a
    bag that can be written, is seen through the snapshot, whose own fields
    do not change. *)
Theorem X9_snapshot_shares_the_bag
    β (c : Connector.instance) (this : value) s s1 s2 s3 (i lb st p : value)
    l o k v :
  call_method β this "getId" [] s = (Normal i, s1) →
  call_method β this "getLabel" [] s1 = (Normal lb, s2) →
  call_method β this "getSteps" [] s2 = (Normal st, s3) →
  attribute (heap s3) this "path" = Some p →
  Connector.options c = VObject l →
  pristine (heap s3) → plain (heap s3) l o → mutable o → k ≠ "__proto__" →
  ∃ json s4 s5,
    Connector.toJSON β c this s = (Normal (VObject json), s4)
    ∧ json ≠ l ∧ heap s4 !! l = Some o
    ∧ field (heap s4) json "options" = Some (VObject l)
    ∧ Connector.setOption β c k v s4 = (Normal tt, s5)
    ∧ heap s5 !! json = heap s4 !! json
    ∧ field (heap s5) l k = Some v.
Proof.
  intros Hi Hlb Hst Hp Hc Hh Hl Hm Hk.
  pose proof (toJSON_after_accessors β c this s s1 s2 s3 i lb st p Hi Hlb Hst Hp) as Hj.
  set (json := fresh (dom (heap s3))) in *.
  assert (l ≠ json) as Hne by (destruct Hl; by eapply fresh_ne).
  eexists json, _, _. split; [exact Hj|]. cbn [heap log]. split_and!.
  - done.
  - apply lookup_alloc, Hl.
  - unfold field. rewrite lookup_insert_eq, Hc. done.
  - apply (setOption_plain β c _ l o); [done| |by apply plain_alloc|done|done].
    by apply pristine_alloc.
  - cbn [heap]. by rewrite lookup_insert_ne.
  - unfold field. cbn [heap]. rewrite lookup_insert_eq. cbn [props set_own].
    by rewrite lookup_insert_eq.
Qed.

Lemma X9_witness :
  let c := Connector.Closure (VString "demo") (VString "Demo") VNull (VObject token_bag) in
  let call_of (f : loc) := Call (VObject f) (VObject demo_self) [] in
  let s1 := State demo_heap [call_of getId_fn] in
  let s2 := State demo_heap [call_of getId_fn; call_of getLabel_fn] in
  let s3 := State demo_heap [call_of getId_fn; call_of getLabel_fn; call_of getSteps_fn] in
  call_method (accessors c) (VObject demo_self) "getId" [] (State demo_heap [])
    = (Normal (VString "demo"), s1)
  ∧ call_method (accessors c) (VObject demo_self) "getLabel" [] s1
    = (Normal (VString "Demo"), s2)
  ∧ call_method (accessors c) (VObject demo_self) "getSteps" [] s2 = (Normal VNull, s3)
  ∧ attribute (heap s3) (VObject demo_self) "path" = Some (VString "/connectors/demo")
  ∧ Connector.options c = VObject token_bag
  ∧ pristine (heap s3)
  ∧ plain (heap s3) token_bag
      (object_literal [("extraRequiredFields", VObject token_array)])
  ∧ mutable (object_literal [("extraRequiredFields", VObject token_array)])
  ∧ "region" ≠ "__proto__"
  ∧ ∃ json s4 s5,
      Connector.toJSON (accessors c) c (VObject demo_self) (State demo_heap [])
        = (Normal (VObject json), s4)
      ∧ field (heap s4) json "options" = Some (VObject token_bag)
      ∧ Connector.setOption (accessors c) c "region" (VString "eu") s4 = (Normal tt, s5)
      ∧ field (heap s5) token_bag "region" = Some (VString "eu").
Proof.
  intros c call_of s1 s2 s3.
  assert (call_method (accessors c) (VObject demo_self) "getId" [] (State demo_heap [])
          = (Normal (VString "demo"), s1)) as H1 by (by vm_compute).
  assert (call_method (accessors c) (VObject demo_self) "getLabel" [] s1
          = (Normal (VString "Demo"), s2)) as H2 by (by vm_compute).
  assert (call_method (accessors c) (VObject demo_self) "getSteps" [] s2
          = (Normal VNull, s3)) as H3 by (by vm_compute).
  assert (attribute (heap s3) (VObject demo_self) "path"
          = Some (VString "/connectors/demo")) as Hp by (by vm_compute).
  assert (pristine (heap s3)) as Hh.
  { split; [done|]. split; eexists; split; by vm_compute. }
  assert (plain (heap s3) token_bag
            (object_literal [("extraRequiredFields", VObject token_array)])) as Hl.
  { split; [by vm_compute | apply object_literal_shaped]. }
  assert (mutable (object_literal [("extraRequiredFields", VObject token_array)]))
    as Hm by done.
  assert ("region" ≠ "__proto__") as Hk by done.
  split_and!; [exact H1 | exact H2 | exact H3 | exact Hp | reflexivity | exact Hh
              | exact Hl | exact Hm | exact Hk |].
  destruct (X9_snapshot_shares_the_bag (accessors c) c (VObject demo_self)
              (State demo_heap []) s1 s2 s3 _ _ _ _ token_bag _ "region" (VString "eu")
              H1 H2 H3 Hp eq_refl Hh Hl Hm Hk)
    as (json & s4 & s5 & Hj & _ & _ & Hf & Hs & _ & Hv).
  exists json, s4, s5. split_and!; [exact Hj | exact Hf | exact Hs | exact Hv].
Defined.

(** ** Callbacks that are missing, that return, that throw *)

Lemma function_code_alloc_None h f x :
  function_code h f = None → (∀ c, kind_of x ≠ Function c) →
  function_code (<[fresh (dom h) := x]> h) f = None.
Proof.
  destruct f as [| | | | | |l]; try done. unfold function_code. intros Hf Hx.
  destruct (decide (fresh (dom h) = l)) as [<-|Hne].
  - rewrite lookup_insert_eq. destruct (kind_of x) eqn:Hk; try done.
    by destruct (Hx c).
  - by rewrite lookup_insert_ne.
Qed.

(** X10.  Called with something that is not a function in the place of the
    callback (a missing argument is [undefined]), each of the four defaults
    that call back throws a TypeError, and no call is made.  [runStarted] and
    [passportAuthCallbackPostProcessing] leave the state as it was;
    [authCallback] and [connectDataSource] have by then allocated their error
    object. *)
Theorem X10_callback_must_be_a_function
    β (oAuthCode pipeId req res url info pipe callback : value) s :
  function_code (heap s) callback = None →
  Connector.runStarted β callback s = (Thrown TypeError, s)
  ∧ Connector.passportAuthCallbackPostProcessing β info pipe callback s
    = (Thrown TypeError, s)
  ∧ Connector.authCallback β oAuthCode pipeId callback s
    = (Thrown TypeError,
       State (<[fresh (dom (heap s)) := Connector.not_authorized]> (heap s)) (log s))
  ∧ Connector.connectDataSource β req res pipeId url callback s
    = (Thrown TypeError,
       State (<[fresh (dom (heap s)) := Connector.not_authorized]> (heap s)) (log s)).
Proof.
  intros Hf.
  assert (function_code (<[fresh (dom (heap s)) := Connector.not_authorized]> (heap s))
            callback = None) as Hf' by (by apply function_code_alloc_None).
  split_and!.
  - by apply invoke_not_function.
  - by apply invoke_not_function.
  - unfold Connector.authCallback, bind, alloc. by apply invoke_not_function.
  - unfold Connector.connectDataSource, bind, alloc. by apply invoke_not_function.
Qed.

Lemma X10_witness :
  function_code (heap start) VUndefined = None
  ∧ Connector.runStarted silent VUndefined start = (Thrown TypeError, start)
  ∧ (Connector.authCallback silent (VString "code") (VString "pipe") VUndefined start).1
    = Thrown TypeError.
Proof.
  assert (function_code (heap start) VUndefined = None) as Hf by reflexivity.
  split; [exact Hf|].
  destruct (X10_callback_must_be_a_function silent (VString "code") (VString "pipe")
              VNull VNull VNull VNull VNull VUndefined start Hf)
    as (H1 & _ & H3 & _).
  split; [exact H1 | by rewrite H3].
Defined.

(** X11.  The defaults that call back hand on what the callback does: with a
    function of the caller's, [authCallback], [connectDataSource] and
    [passportAuthCallbackPostProcessing] return what the callback returns,
    throw what it throws, and leave the heap it leaves. *)
Theorem X11_callback_outcome_is_handed_on
    β (oAuthCode pipeId req res url info pipe callback : value) s :
  function_code (heap s) callback = Some Opaque →
  let err := fresh (dom (heap s)) in
  let unauthorized := Call callback VUndefined [VObject err] in
  let r := β unauthorized (<[err := Connector.not_authorized]> (heap s)) in
  let r' := β (Call callback VUndefined []) (heap s) in
  Connector.authCallback β oAuthCode pipeId callback s
    = (r.1, State r.2 (log s ++ [unauthorized]))
  ∧ Connector.connectDataSource β req res pipeId url callback s
    = (r.1, State r.2 (log s ++ [unauthorized]))
  ∧ Connector.passportAuthCallbackPostProcessing β info pipe callback s
    = (r'.1, State r'.2 (log s ++ [Call callback VUndefined []])).
Proof.
  intros Hf err unauthorized r r'.
  assert (function_code (<[err := Connector.not_authorized]> (heap s)) callback
          = Some Opaque) as Hf' by (by apply function_code_alloc).
  split_and!.
  - unfold Connector.authCallback, bind, alloc. fold err.
    by rewrite invoke_opaque.
  - unfold Connector.connectDataSource, bind, alloc. fold err.
    by rewrite invoke_opaque.
  - by apply invoke_opaque.
Qed.

Lemma X11_witness :
  function_code (heap (State callback_heap [])) (VObject callback_fn) = Some Opaque
  ∧ (Connector.authCallback
       (λ _ h, (Thrown (Raised (VString "boom")), h))
       (VString "code") (VString "pipe") (VObject callback_fn)
       (State callback_heap [])).1
    = Thrown (Raised (VString "boom")).
Proof.
  assert (function_code (heap (State callback_heap [])) (VObject callback_fn)
          = Some Opaque) as Hf by (by vm_compute).
  split; [exact Hf|].
  destruct (X11_callback_outcome_is_handed_on
              (λ _ h, (Thrown (Raised (VString "boom")), h))
              (VString "code") (VString "pipe") VNull VNull VNull VNull VNull
              (VObject callback_fn) (State callback_heap []) Hf) as (H1 & _).
  by rewrite H1.
Defined.

(** ** Identity and label *)

(** X12.  The id and the label are two independent cells: [getId()] returns
    what the last [setId] stored and [getLabel()] what the last [setLabel]
    stored, whatever was there before; neither setter touches the other
    cell, the steps or the bag; the two setters commute. *)
Theorem X12_id_and_label_are_independent (c : Connector.instance) (x x' y : value) :
  Connector.getId (Connector.setId c x) = x
  ∧ Connector.getLabel (Connector.setLabel c y) = y
  ∧ Connector.getId (Connector.setId (Connector.setId c x) x') = x'
  ∧ Connector.getId (Connector.setLabel c y) = Connector.getId c
  ∧ Connector.getLabel (Connector.setId c x) = Connector.getLabel c
  ∧ Connector.getSteps (Connector.setId (Connector.setLabel c y) x) = Connector.getSteps c
  ∧ Connector.options (Connector.setId (Connector.setLabel c y) x) = Connector.options c
  ∧ Connector.setId (Connector.setLabel c y) x = Connector.setLabel (Connector.setId c x) y
  ∧ Connector.setId (Connector.setSteps c y) x = Connector.setSteps (Connector.setId c x) y.
Proof. by destruct c. Qed.


(** ** Options that are not objects *)

Section PrimitiveOptions.

Variable β : call → gmap loc object → result value * gmap loc object.

Lemma lookup_prop_wrapped h v w k :
  wrapped_by v w → lookup_prop h v k = Some (find_prop (chain_bound h) h w k).
Proof. by intros [(n & -> & ->) | (b & -> & ->)]. Qed.

Lemma call_hasOwnProperty_wrapped s v w k :
  pristine (heap s) → wrapper_prototype (heap s) w → wrapped_by v w →
  call_method β v "hasOwnProperty" [VString k] s =
    (Normal (VBool false),
     State (heap s) (log s ++ [Call (VObject HasOwnPropertyFn) v [VString k]])).
Proof.
  intros (H1 & (f & Hf & Kf) & _) (o & Hw & Hp & Hk & _) Hv.
  unfold call_method, bind, get_prop.
  rewrite (lookup_prop_wrapped _ _ _ _ Hv), (find_prop_inherit _ _ _ _ H1 Hw Hp), Hk.
  change (props object_prototype !! "hasOwnProperty")
    with (Some (Data (VObject HasOwnPropertyFn))).
  unfold invoke, function_code. rewrite Hf, Kf. cbn [builtin].
  by destruct Hv as [(n & -> & _) | (b & -> & _)].
Qed.

Lemma set_useOAuth_wrapped s v w x :
  pristine (heap s) → wrapper_prototype (heap s) w → wrapped_by v w →
  set_prop β v "useOAuth" x s = (Thrown TypeError, s).
Proof.
  intros (H1 & _) (o & Hw & Hp & _ & Hk) Hv. unfold set_prop.
  rewrite (lookup_prop_wrapped _ _ _ _ Hv), (find_prop_inherit _ _ _ _ H1 Hw Hp), Hk.
  change (props object_prototype !! "useOAuth") with (@None property).
  by destruct Hv as [(n & -> & _) | (b & -> & _)].
Qed.

Lemma wrapper_prototype_alloc h w x :
  wrapper_prototype h w → wrapper_prototype (<[fresh (dom h) := x]> h) w.
Proof. intros (o & Hw & ?). exists o. split; [by apply lookup_alloc | done]. Qed.

End PrimitiveOptions.

(** X13.  A truthy number or boolean given as options is kept as the bag and
    rejected at the first default: [hasOwnProperty] answers [false] for
    [useOAuth], the write [options['useOAuth'] = true] on a primitive throws
    a TypeError in strict mode, and no connector is constructed. *)
Theorem X13_primitive_options_are_rejected β s (v : value) w :
  pristine (heap s) → wrapper_prototype (heap s) w → wrapped_by v w →
  truthy v = true →
  (Connector.connector β v s).1 = Thrown TypeError
  ∧ log (Connector.connector β v s).2
    = log s ++ [Call (VObject HasOwnPropertyFn) v [VString "useOAuth"]].
Proof.
  intros Hh Hw Hv Ht.
  set (h0 := <[fresh (dom (heap s)) := array_literal []]> (heap s)).
  set (e := fresh (dom h0)). set (h1 := <[e := array_literal []]> h0).
  set (h2 := <[fresh (dom h1) := object_literal (Connector.defaults e)]> h1).
  assert (Connector.connector β v s
          = (Thrown TypeError,
             State h2 (log s ++ [Call (VObject HasOwnPropertyFn) v [VString "useOAuth"]])))
    as Hc; [|by rewrite Hc].
  unfold Connector.connector.
  unfold bind at 1, alloc at 1. rewrite Ht. unfold bind at 1, ret at 1.
  unfold Connector.merge_defaults.
  unfold bind at 2, alloc at 1. unfold bind at 2, alloc at 1. cbn [heap log].
  fold h0. fold e. fold h1. fold h2.
  assert (pristine h2) as Hh2 by (by do 3 apply pristine_alloc).
  assert (wrapper_prototype h2 w) as Hw2 by (by do 3 apply wrapper_prototype_alloc).
  cbn [Connector.forIn Connector.defaults]. unfold Connector.merge_default.
  unfold bind at 1. unfold bind at 1.
  rewrite (bind_normal _ _ _ _ _
             (call_hasOwnProperty_wrapped β (State h2 (log s)) v w "useOAuth"
                Hh2 Hw2 Hv)).
  cbn [truthy heap log].
  by rewrite (set_useOAuth_wrapped β (State h2 _) v w) by done.
Qed.

Lemma X13_witness :
  pristine (heap start) ∧ wrapper_prototype (heap start) NumberPrototype
  ∧ wrapped_by (VNumber 7) NumberPrototype ∧ truthy (VNumber 7) = true
  ∧ (Connector.connector silent (VNumber 7) start).1 = Thrown TypeError.
Proof.
  assert (pristine (heap start)) as Hh.
  { split; [done|]. split; eexists; split; by vm_compute. }
  assert (wrapper_prototype (heap start) NumberPrototype) as Hw.
  { exists empty_prototype. split_and!; by vm_compute. }
  assert (wrapped_by (VNumber 7) NumberPrototype) as Hv by (left; by exists 7%Z).
  assert (truthy (VNumber 7) = true) as Ht by reflexivity.
  split_and!; [exact Hh | exact Hw | exact Hv | exact Ht |].
  exact (proj1 (X13_primitive_options_are_rejected silent start (VNumber 7)
                  NumberPrototype Hh Hw Hv Ht)).
Defined.

(** ** Authorization parameters *)

(** X14.  Every call of the default [getPassportAuthorizationParams] returns
    an object of its own: two calls give two different empty objects, so a
    caller who adds parameters to one result does not change a later one.
    No function is called. *)
Theorem X14_authorization_params_are_not_shared s :
  ∃ p1 s1 p2 s2,
    Connector.getPassportAuthorizationParams s = (Normal (VObject p1), s1)
    ∧ Connector.getPassportAuthorizationParams s1 = (Normal (VObject p2), s2)
    ∧ p1 ≠ p2
    ∧ heap s !! p1 = None ∧ heap s1 !! p2 = None
    ∧ heap s2 !! p1 = Some (object_literal [])
    ∧ heap s2 !! p2 = Some (object_literal [])
    ∧ log s2 = log s.
Proof.
  eexists _, _, _, _. split; [reflexivity|]. split; [reflexivity|]. cbn [heap log].
  set (p1 := fresh (dom (heap s))).
  set (h1 := <[p1 := object_literal []]> (heap s)).
  assert (h1 !! p1 = Some (object_literal [])) as H1 by apply lookup_insert_eq.
  split_and!.
  - by eapply fresh_ne.
  - apply fresh_lookup.
  - apply fresh_lookup.
  - by apply lookup_alloc.
  - apply lookup_insert_eq.
  - done.
Qed.


(** ** Bags that cannot be written *)


Section ClosedBags.

Variable β : call → gmap loc object → result value * gmap loc object.



End ClosedBags.



(** A construction with [Object.freeze({})] throws. *)
Example frozen_empty_bag_throws β :
  (Connector.connector β (VObject frozen_bag)
     (State (<[frozen_bag := freeze (object_literal [])]> realm) [])).1
  = Thrown TypeError.
Proof. by vm_compute. Qed.
